(** * Pazaak: the training-data synthesis and the feature pipeline of
      [computer_learn.py], embedded and verified.

    The module keeps one process-wide [dataset] frame.  [record_results]
    appends one row per decision of the trainee, [create_dataset] plays
    sets against the game engine, resolves the pending scores when a set
    ends, and writes the frame to a csv file.  [train_model] reads such a
    file back, derives two columns, and fits a regressor.

    What is outside [computer_learn.py] (the [random] module, the timer,
    the game engine [pazaak], the two strategies of
    [computer_strategies], scikit-learn) is taken as a parameter of the
    development. *)

From Stdlib Require Import ZArith QArith String List Lia.
From stdpp Require Import base option list strings gmap.

Local Open Scope string_scope.
Local Open Scope list_scope.
Local Open Scope Z_scope.

(** ** Python values *)

(** The exceptions the modelled code can meet. *)
Inductive exn : Type :=
  | IndexError
  | ZeroDivisionError
  | KeyError (column : string)
  | AttributeError (attribute : string)
  | TypeError
  | ValueError
  | OverflowError
  | FileNotFoundError (path : string)
  | OtherError (message : string).

(** A computation over a state [S]: it returns a value, or raises, and in
    both cases leaves a state behind (a Python exception does not roll
    the module globals back). *)
Inductive outcome (S A : Type) : Type :=
  | Returns (a : A) (s : S)
  | Raises (e : exn) (s : S).
Arguments Returns {S A} a s.
Arguments Raises {S A} e s.

Definition final_state {S A : Type} (o : outcome S A) : S :=
  match o with
  | Returns _ s => s
  | Raises _ s => s
  end.

(** [l[i]] on a Python list: a negative index counts from the end, an
    index outside [-len, len) raises [IndexError] (here [None]). *)
Definition py_getitem {A : Type} (l : list A) (i : Z) : option A :=
  let n := Z.of_nat (length l) in
  if 0 <=? i then l !! Z.to_nat i
  else if - n <=? i then l !! Z.to_nat (n + i)
  else None.

(** [int(x)] on a float: truncation towards zero. *)
Definition py_int (x : Q) : Z := Z.quot (Qnum x) (Z.pos (Qden x)).

(** [n / t] on two Python integers: the double nearest to the quotient
    (ties to even, down to the subnormal doubles), returned here as the
    rational it is; division by 0 and a quotient beyond the doubles
    raise. *)
Definition round_half_even (n d : Z) : Z :=
  let q := n / d in
  let r := n mod d in
  if 2 * r <? d then q
  else if d <? 2 * r then q + 1
  else if Z.even q then q else q + 1.

Definition double_of_ratio (a b : Z) : Q :=
  let k := Z.log2 a - Z.log2 b in
  let e := if b * 2 ^ Z.max 0 k <=? a * 2 ^ Z.max 0 (- k) then k else k - 1 in
  let sh := Z.min (52 - e) 1074 in
  let m := round_half_even (a * 2 ^ Z.max 0 sh) (b * 2 ^ Z.max 0 (- sh)) in
  Qred (Qmake (m * 2 ^ Z.max 0 (- sh)) (Z.to_pos (2 ^ Z.max 0 sh))).

Definition py_truediv (n t : Z) : exn + Q :=
  if t =? 0 then inl ZeroDivisionError
  else if n =? 0 then inr 0%Q
  else
    let q := double_of_ratio (Z.abs n) (Z.abs t) in
    if Qle_bool (inject_Z (2 ^ 1024)) q then inl OverflowError
    else inr (if Z.sgn n * Z.sgn t <? 0 then Qopp q else q).

(** ** The data frame of decisions *)

(** A cell of the frame: the missing value [np.nan], a number, a truth
    value, or a text.

    [Flag b] is the truth value [b] however the frame holds it: pandas
    keeps the boolean where the column is one of objects and stores the
    float 1.0 or 0.0 where the column is one of floats, as for the first
    row appended to the frame of line 25.  The model does not tell the
    two apart.  The two columns of truth values, [opp_stands] and
    [result_stand], are not read by lines 66-76 and 108-111 other than
    to fill missing cells and to hand the columns on to the regressor.

    [Str] is a text that is neither a number nor a truth value, as a
    file can hold one and as [+] makes one of two texts; what the text
    says is not kept. *)
Inductive cell : Type :=
  | NaN
  | Num (q : Q)
  | Flag (b : bool)
  | Str.

Definition isna (c : cell) : bool :=
  match c with
  | NaN => true
  | _ => false
  end.

Definition is_num (c : cell) : bool :=
  match c with
  | Num _ => true
  | _ => false
  end.

Definition is_flag (c : cell) : bool :=
  match c with
  | Flag _ => true
  | _ => false
  end.

Definition is_str (c : cell) : bool :=
  match c with
  | Str => true
  | _ => false
  end.

(** One row, with the six columns the frame is created with. *)
Record Row : Type := mkRow {
  self_score : cell;
  opp_score : cell;
  opp_stands : cell;
  result_card_val : cell;
  result_stand : cell;
  score : cell
}.

Abbreviation DataFrame := (list Row).

Definition columns : list string :=
  ["self_score"; "opp_score"; "opp_stands";
   "result_card_val"; "result_stand"; "score"].

(** The frame the module starts with: the six columns and no row. *)
Definition initial_dataset : DataFrame := [].

(** [DataFrame.append(row, ignore_index=True)]: a new frame with the row
    at the end, the rows before it as they were. *)
Definition append (df : DataFrame) (r : Row) : DataFrame := df ++ [r].

Definition fillna_cell (v : Q) (c : cell) : cell :=
  if isna c then Num v else c.

Definition fillna_row (v : Q) (r : Row) : Row :=
  {| self_score := fillna_cell v (self_score r);
     opp_score := fillna_cell v (opp_score r);
     opp_stands := fillna_cell v (opp_stands r);
     result_card_val := fillna_cell v (result_card_val r);
     result_stand := fillna_cell v (result_stand r);
     score := fillna_cell v (score r) |}.

(** [DataFrame.fillna(v, inplace=True)]: every missing cell of every
    column becomes [v]. *)
Definition fillna (v : Q) (df : DataFrame) : DataFrame := fillna_row v <$> df.

Definition set_score (x : cell) (r : Row) : Row :=
  {| self_score := self_score r;
     opp_score := opp_score r;
     opp_stands := opp_stands r;
     result_card_val := result_card_val r;
     result_stand := result_stand r;
     score := x |}.

(** [df.iloc[-1, 5] = x]: column 5 ([score]) of the last row; a frame
    without rows has no row [-1] and the assignment raises. *)
Definition iloc_set_last_score (x : Q) (df : DataFrame) : exn + DataFrame :=
  match last df with
  | None => inl IndexError
  | Some r => inr (<[Nat.pred (length df) := set_score (Num x) r]> df)
  end.

(** The five columns that are not the label. *)
Definition features (r : Row) : list cell :=
  [self_score r; opp_score r; opp_stands r; result_card_val r; result_stand r].

(** A row is unresolved when its score is still missing. *)
Definition unresolved (r : Row) : bool := isna (score r).

(** The two scores and the card value of a row are numbers. *)
Definition numeric (r : Row) : bool :=
  is_num (self_score r) && is_num (opp_score r)
  && is_num (result_card_val r).

(** A row has no missing cell at all. *)
Definition complete (r : Row) : bool :=
  forallb (fun c => negb (isna c)) (features r ++ [score r]).

(** None of the five feature cells is missing. *)
Definition has_features (r : Row) : bool :=
  forallb (fun c => negb (isna c)) (features r).

(** The row a decision is recorded in: only its score is missing. *)
Definition pending (r : Row) : bool := isna (score r) && has_features r.

(** A later state [r'] of a row [r]: features that were present are
    still the same. *)
Definition kept (r r' : Row) : Prop :=
  has_features r = true -> features r' = features r.

(** ** The csv file *)

Record CsvFile : Type := mkCsv {
  header : list string;
  records : list Row
}.

(** [df.to_csv(path, index=False)]: the header line, then one line per
    row. *)
Definition to_csv (df : DataFrame) : CsvFile :=
  {| header := columns; records := df |}.

Definition DATASET_FILE_NAME : string := "resources/result.csv".
Definition MODEL_FILE_NAME : string := "resources/model.joblib".
Definition GRAPHVIZ_FILE_NAME : string := "resources/graph.dot".

(** ** Decisions and strategies *)

(** What a strategy returns: [(play_card, card_index, stand)]. *)
Definition decision : Type := bool * Z * bool.

(** [random.random()] returns a float [k / 2^53]; the model keeps the
    numerator [k].  The literal [0.9] is the double
    [8106479329266893 / 2^53]. *)
Definition float53 : Type := Z.
Definition float53_value (k : float53) : Q := k # (2 ^ 53).
Definition lt_0_9 (k : float53) : bool := k <? 8106479329266893.

Record Player : Type := mkPlayer { name : string }.

(** A strategy function over the outside state [E] (the generator of
    [random], the clock, the globals of [pazaak]): it gets the hand, both
    scores and whether the opponent stands; it may use the generator; it
    may raise. *)
Definition Strategy (E : Type) : Type :=
  list Z -> Z -> Z -> bool -> E -> outcome E decision.

(** One call of [pazaak.play_a_set]: the engine works on its own (it
    deals cards, lets the opponent move, uses the generator), asks the
    trainee's strategy function for a decision any number of times, and
    in the end returns the winner ([None] for a draw) or fails. *)
Inductive Play (E : Type) : Type :=
  | Return (winner : option Player)
  | Abort (e : exn)
  | Engine (next : E -> E) (k : E -> Play E)
  | Decide (self_hand : list Z) (self_score opp_score : Z)
      (opp_stands : bool) (k : decision -> Play E).
Arguments Return {E} winner.
Arguments Abort {E} e.
Arguments Engine {E} next k.
Arguments Decide {E} self_hand self_score opp_score opp_stands k.

(** What [computer_learn.py] imports and calls. *)
Class Outside (E : Type) : Type := {
  random_random : E -> float53 * E;
  random_sample : E -> bool * E;
  timer : E -> Q * E;
  bls : Strategy E;
  rds : Strategy E;
  setup_game : E -> E;
  prepare_next_game : E -> E;
  play_a_set : Player -> Player -> Play E
}.

(** The state the module works on: its global [dataset], the files it
    has written, and the outside world. *)
Record World (E : Type) : Type := mkWorld {
  dataset : DataFrame;
  files : gmap string CsvFile;
  ext : E
}.
Arguments mkWorld {E} dataset files ext.
Arguments dataset {E} w.
Arguments files {E} w.
Arguments ext {E} w.

Section Synthesis.

Context {E : Type} `{!Outside E}.

Definition with_ext (e : E) (w : World E) : World E :=
  {| dataset := dataset w; files := files w; ext := e |}.

Definition with_dataset (df : DataFrame) (w : World E) : World E :=
  {| dataset := df; files := files w; ext := ext w |}.

(** Lines 160-161: with no strategy given, one draw of [random.random()]
    decides between [bls] and [rds]. *)
Definition select_strategy (strategy_func : option (Strategy E)) (e : E)
  : Strategy E * E :=
  match strategy_func with
  | Some f => (f, e)
  | None =>
      let '(u, e') := random_random e in
      (if lt_0_9 u then bls else rds, e')
  end.

(** The row of lines 164-171, given the value of the card: the two
    scores and the card value are numbers, [opp_stands] and [stand] are
    the two truth values, and the score is missing. *)
Definition recorded_row (self_score opp_score : Z) (opp_stands : bool)
    (card_val : Z) (stand : bool) : Row :=
  {| self_score := Num (inject_Z self_score);
     opp_score := Num (inject_Z opp_score);
     opp_stands := Flag opp_stands;
     result_card_val := Num (inject_Z card_val);
     result_stand := Flag stand;
     score := NaN |}.

(** [record_results], lines 147-172. *)
Definition record_results (self_hand : list Z) (self_score opp_score : Z)
    (opp_stands : bool) (strategy_func : option (Strategy E)) (w : World E)
  : outcome (World E) decision :=
  let '(f, e1) := select_strategy strategy_func (ext w) in
  match f self_hand self_score opp_score opp_stands e1 with
  | Raises x e2 => Raises x (with_ext e2 w)
  | Returns (play_card, card_index, stand) e2 =>
      let card :=
        if play_card then py_getitem self_hand card_index else Some 0 in
      match card with
      | None => Raises IndexError (with_ext e2 w)
      | Some v =>
          Returns (play_card, card_index, stand)
            (with_dataset
               (append (dataset w)
                  (recorded_row self_score opp_score opp_stands v stand))
               (with_ext e2 w))
      end
  end.

(** ** The loop of [create_dataset] *)

Definition MLTrainee : Player := {| name := "MLTrainee" |}.
Definition Opponent : Player := {| name := "Opponent" |}.

(** The engine runs; every [Decide] is a call of the trainee's strategy
    function, which line 49 makes [record_results] with [strategy_func]
    fixed.  An exception of that call leaves through the engine. *)
Fixpoint run_set (strategy_func : option (Strategy E)) (p : Play E)
    (w : World E)
  : outcome (World E) (option Player) :=
  match p with
  | Return winner => Returns winner w
  | Abort e => Raises e w
  | Engine next k =>
      run_set strategy_func (k (ext w)) (with_ext (next (ext w)) w)
  | Decide h s o st k =>
      match record_results h s o st strategy_func w with
      | Returns d w' => run_set strategy_func (k d) w'
      | Raises e w' => Raises e w'
      end
  end.

(** The number of decisions recorded while the engine runs. *)
Fixpoint decisions (strategy_func : option (Strategy E)) (p : Play E)
    (w : World E)
  : nat :=
  match p with
  | Return _ | Abort _ => 0%nat
  | Engine next k =>
      decisions strategy_func (k (ext w)) (with_ext (next (ext w)) w)
  | Decide h s o st k =>
      match record_results h s o st strategy_func w with
      | Returns d w' => S (decisions strategy_func (k d) w')
      | Raises _ _ => 0%nat
      end
  end.

(** The counters [sets_won, draws, sets_lost]. *)
Record Tally : Type := mkTally {
  sets_won : Z;
  draws : Z;
  sets_lost : Z
}.

(** Lines 66-76: the pending scores are resolved from the winner and the
    matching counter goes up.  [fillna] has already changed the frame
    when [iloc] raises. *)
Definition resolve (winner : option Player) (t : Tally) (w : World E)
  : outcome (World E) Tally :=
  match winner with
  | None =>
      Returns {| sets_won := sets_won t; draws := draws t + 1;
                 sets_lost := sets_lost t |}
        (with_dataset (fillna 0 (dataset w)) w)
  | Some p =>
      if String.eqb (name p) "MLTrainee" then
        let df := fillna (3 # 10) (dataset w) in
        match iloc_set_last_score 1 df with
        | inl e => Raises e (with_dataset df w)
        | inr df' =>
            Returns {| sets_won := sets_won t + 1; draws := draws t;
                       sets_lost := sets_lost t |}
              (with_dataset df' w)
        end
      else
        let df := fillna (- 3 # 10) (dataset w) in
        match iloc_set_last_score (-1) df with
        | inl e => Raises e (with_dataset df w)
        | inr df' =>
            Returns {| sets_won := sets_won t; draws := draws t;
                       sets_lost := sets_lost t + 1 |}
              (with_dataset df' w)
        end
  end.

(** The two constants of each branch of lines 66-76: what [fillna] puts
    in, and what the last row gets. *)
Definition partial_score (winner : option Player) : Q :=
  match winner with
  | None => 0
  | Some p => if String.eqb (name p) "MLTrainee" then 3 # 10 else - 3 # 10
  end.

Definition last_score (winner : option Player) : Q :=
  match winner with
  | None => 0
  | Some p => if String.eqb (name p) "MLTrainee" then 1 else -1
  end.

(** The seats of line 64: [random.sample] of the two players. *)
Definition seats (trainee_first : bool) : Player * Player :=
  if trainee_first then (MLTrainee, Opponent) else (Opponent, MLTrainee).

(** The world in which the engine starts a set, after the seats are
    drawn, and the set that is played. *)
Definition seated (w : World E) : Play E * World E :=
  let '(b, e) := random_sample (ext w) in
  (play_a_set (fst (seats b)) (snd (seats b)), with_ext e w).

(** One turn of the loop, lines 63-77. *)
Definition play_one_set (strategy_func : option (Strategy E)) (t : Tally)
    (w : World E) : outcome (World E) Tally :=
  let '(p, w0) := seated w in
  match run_set strategy_func p w0 with
  | Raises e w1 => Raises e w1
  | Returns winner w1 =>
      match resolve winner t w1 with
      | Raises e w2 => Raises e w2
      | Returns t' w2 => Returns t' (with_ext (prepare_next_game (ext w2)) w2)
      end
  end.

(** The loop of lines 62-77, [n] turns. *)
Fixpoint play_sets (strategy_func : option (Strategy E)) (n : nat) (t : Tally)
    (w : World E) : outcome (World E) Tally :=
  match n with
  | O => Returns t w
  | S n' =>
      match play_one_set strategy_func t w with
      | Raises e w' => Raises e w'
      | Returns t' w' => play_sets strategy_func n' t' w'
      end
  end.

(** The decisions recorded in each turn of the loop, turn by turn. *)
Fixpoint decisions_per_set (strategy_func : option (Strategy E)) (n : nat)
    (t : Tally) (w : World E) : list nat :=
  match n with
  | O => []
  | S n' =>
      decisions strategy_func (fst (seated w)) (snd (seated w)) ::
      match play_one_set strategy_func t w with
      | Raises _ _ => []
      | Returns t' w' => decisions_per_set strategy_func n' t' w'
      end
  end.

(** What lines 84-86 print. *)
Record Report : Type := mkReport {
  tally : Tally;
  played : Z;
  total_time : Z;
  sets_per_sec : Q
}.

(** Line 56: the counters start at 0. *)
Definition no_sets : Tally := {| sets_won := 0; draws := 0; sets_lost := 0 |}.

(** The world in which the loop starts: the timer is read, the game is
    set up. *)
Definition started (w : World E) : World E :=
  with_ext (setup_game (snd (timer (ext w)))) w.

(** Line 79: the frame goes to the dataset file. *)
Definition persisted (w : World E) : World E :=
  {| dataset := dataset w;
     files := <[DATASET_FILE_NAME := to_csv (dataset w)]> (files w);
     ext := ext w |}.

(** [create_dataset], lines 31-86.  Lines 49-54 make the two players,
    the trainee with [record_results] as its strategy function (this is
    what [run_set] calls at a [Decide]).  [range(0, learning_sets)] is
    empty for a count that is not positive; the division of line 82
    is the division of two integers into a double, which raises for a
    divisor 0; the result stands for what the last two lines print. *)
Definition create_dataset (learning_sets : Z)
    (strategy_func : option (Strategy E)) (w : World E)
  : outcome (World E) Report :=
  let start := fst (timer (ext w)) in
  match play_sets strategy_func (Z.to_nat learning_sets) no_sets
          (started w) with
  | Raises e w1 => Raises e w1
  | Returns t w1 =>
      let w2 := persisted w1 in
      let '(stop, e3) := timer (ext w2) in
      let w3 := with_ext e3 w2 in
      let total := py_int (stop - start) in
      match py_truediv learning_sets total with
      | inl e => Raises e w3
      | inr per_sec =>
          Returns {| tally := t; played := learning_sets;
                     total_time := total; sets_per_sec := per_sec |}
            w3
      end
  end.

End Synthesis.

(** ** The training pipeline *)

(** The frame [train_model] works on, column by column: columns are
    added at the end and dropped by name. *)
Abbreviation Frame := (list (string * list cell)).

Fixpoint getcol (c : string) (df : Frame) : option (list cell) :=
  match df with
  | [] => None
  | (n, col) :: df' => if String.eqb n c then Some col else getcol c df'
  end.

(** [df.c], the column read as an attribute of the frame: a name the
    frame does not have is a missing attribute. *)
Definition column (c : string) (df : Frame) : exn + list cell :=
  match getcol c df with
  | Some col => inr col
  | None => inl (AttributeError c)
  end.

(** [df[c] = col]: the column is replaced where it stands, a new name
    goes to the end. *)
Definition setcol (c : string) (col : list cell) (df : Frame) : Frame :=
  match getcol c df with
  | Some _ =>
      (fun p : string * list cell =>
         if String.eqb (fst p) c then (fst p, col) else p) <$> df
  | None => df ++ [(c, col)]
  end.

(** [df.drop(columns=cs)]: all names must be there. *)
Definition drop_columns (cs : list string) (df : Frame) : exn + Frame :=
  match List.find (fun c => negb (bool_decide (is_Some (getcol c df)))) cs with
  | Some c => inl (KeyError c)
  | None =>
      inr (List.filter
             (fun p : string * list cell => negb (bool_decide (fst p ∈ cs)))
             df)
  end.

(** The number in a cell, where Python or numpy take a boolean as a
    number: 0 and 1. *)
Definition to_num (c : cell) : option Q :=
  match c with
  | NaN => None
  | Num q => Some q
  | Flag b => Some (if b then 1%Q else 0%Q)
  | Str => None
  end.

Definition cell_sub (a b : cell) : cell :=
  match to_num a, to_num b with
  | Some x, Some y => Num (x - y)
  | _, _ => NaN
  end.

Definition cell_add (a b : cell) : cell :=
  match to_num a, to_num b with
  | Some x, Some y => Num (x + y)
  | _, _ => NaN
  end.

Definition cell_or (a b : cell) : cell :=
  match a, b with
  | Flag x, Flag y => Flag (x || y)
  | _, _ => NaN
  end.

(** What a column is once a file is read, pandas inferring it from the
    whole column at once: numbers (with or without missing values, and
    the column without rows), booleans, booleans with missing values
    (kept as objects), or text, when the file has a text in the column
    or numbers and booleans in one column; every cell of a column of
    text that is not missing is a string then. *)
Inductive kind : Type :=
  | Numbers
  | Booleans
  | Objects
  | Text.

Definition kind_of (col : list cell) : kind :=
  if existsb is_str col then Text
  else if negb (existsb is_flag col) then Numbers
  else if existsb is_num col then Text
  else if existsb isna col then Objects
  else Booleans.

(** Both cells of a row are there. *)
Definition both_present (p : cell * cell) : bool :=
  negb (isna (fst p)) && negb (isna (snd p)).

(** What [+] makes of two cells of text. *)
Definition cell_concat (a b : cell) : cell :=
  if both_present (a, b) then Str else NaN.

(** Arithmetic on two columns of one frame goes row by row, and a row
    with a missing cell gives a missing cell.  Two columns of booleans
    are refused by [-] and joined with "or" by [+].  With a column of
    text, pandas works on the rows that have both cells: [-] refuses
    such a row, [+] refuses it unless both cells are text, which it
    concatenates; without any such row the result is a column of
    missing cells.  Everywhere else a boolean counts as 0 or 1. *)
Definition series_sub (a b : list cell) : exn + list cell :=
  match kind_of a, kind_of b with
  | Text, _ | _, Text =>
      if existsb both_present (zip a b) then inl TypeError
      else inr (zip_with cell_sub a b)
  | Booleans, Booleans => inl TypeError
  | _, _ => inr (zip_with cell_sub a b)
  end.

Definition series_add (a b : list cell) : exn + list cell :=
  match kind_of a, kind_of b with
  | Text, Text => inr (zip_with cell_concat a b)
  | Text, _ | _, Text =>
      if existsb both_present (zip a b) then inl TypeError
      else inr (zip_with cell_add a b)
  | Booleans, Booleans => inr (zip_with cell_or a b)
  | _, _ => inr (zip_with cell_add a b)
  end.

(** [pd.read_csv]: one column per name of the header. *)
Definition read_csv (f : CsvFile) : Frame :=
  zip (header f)
    ((fun proj : Row -> cell => proj <$> records f) <$>
       [self_score; opp_score; opp_stands;
        result_card_val; result_stand; score]).

#[local] Instance exn_ret : MRet (sum exn) := fun _ x => inr x.
#[local] Instance exn_bind : MBind (sum exn) := fun _ _ f m =>
  match m with
  | inl e => inl e
  | inr x => f x
  end.

(** Lines 108-115: the two derived columns, the two dropped ones, and the
    split into the features [X] and the label [y]. *)
Definition engineer (df : Frame) : exn + (Frame * list cell) :=
  s ← column "self_score" df;
  o ← column "opp_score" df;
  d ← series_sub s o;
  let df1 := setcol "score_difference" d df in
  df2 ← drop_columns ["opp_score"] df1;
  s' ← column "self_score" df2;
  c ← column "result_card_val" df2;
  p ← series_add s' c;
  let df3 := setcol "score_if_card_played" p df2 in
  df4 ← drop_columns ["result_card_val"] df3;
  X ← drop_columns ["score"] df4;
  y ← column "score" df4;
  mret (X, y).

(** The two derived features of a row. *)
Definition score_difference (r : Row) : cell :=
  cell_sub (self_score r) (opp_score r).

Definition score_if_card_played (r : Row) : cell :=
  cell_add (self_score r) (result_card_val r).

(** The feature columns as the specification words them: the pair
    [self_score], [opp_score] gives way to [score_difference], and
    [result_card_val] to [score_if_card_played]. *)
Definition spec_feature_columns : list string :=
  ["score_difference"; "opp_stands"; "score_if_card_played"; "result_stand"].

Definition feature_names : list string :=
  ["self_score"; "opp_stands"; "result_stand";
   "score_difference"; "score_if_card_played"].

(** What the pipeline takes from scikit-learn and joblib.  The split,
    the fit, the score and the export of the graph can each refuse what
    they are given (too few rows, text or missing values, names that do
    not match) and raise. *)
Class Sklearn (Model : Type) : Type := {
  train_test_split :
    Frame -> list cell -> exn + (Frame * Frame * list cell * list cell);
  fit : Model -> Frame -> list cell -> exn + Model;
  r2_score : Model -> Frame -> list cell -> exn + Q;
  is_decision_tree : Model -> bool;
  export_graphviz : Model -> list string -> exn + string
}.

Record Artifacts (Model : Type) : Type := mkArtifacts {
  models : gmap string Model;
  graphs : gmap string string
}.
Arguments mkArtifacts {Model} models graphs.
Arguments models {Model} a.
Arguments graphs {Model} a.

Section Pipeline.

Context {Model : Type} `{!Sklearn Model}.

(** [train_model], lines 89-130: the score on the test part, and the
    files written.  The graph is written before the model is dumped, and
    both after everything that can raise here, so that an exception
    leaves nothing written. *)
Definition train_model (regressor : Model)
    (dataset_file_name model_file_name : string)
    (csvs : gmap string CsvFile) (out : Artifacts Model)
  : exn + (Q * Artifacts Model) :=
  match csvs !! dataset_file_name with
  | None => inl (FileNotFoundError dataset_file_name)
  | Some f =>
      '(X, y) ← engineer (read_csv f);
      '(X_train, X_test, y_train, y_test) ← train_test_split X y;
      fitted ← fit regressor X_train y_train;
      score ← r2_score fitted X_test y_test;
      graphs' ←
        (if is_decision_tree regressor
         then dot ← export_graphviz fitted feature_names;
              mret (<[GRAPHVIZ_FILE_NAME := dot]> (graphs out))
         else mret (graphs out));
      mret (score,
            {| models := <[model_file_name := fitted]> (models out);
               graphs := graphs' |})
  end.

End Pipeline.

(** ** A small outside world, to run the code on *)

Module Scenario.

(** The outside state is the number of sets finished so far; the clock
    shows one second per finished set. *)
Definition hand : list Z := [1; 2; -3; 4].

(** Draws to 16, stands on 17, never plays a card. *)
Definition stand_on_17 : Strategy nat :=
  fun _ s _ _ e => Returns (false, 0, 17 <=? s) e.

(** Always plays the last card of the hand. *)
Definition play_last : Strategy nat :=
  fun _ _ _ _ e => Returns (true, -1, false) e.

(** A strategy that fails once the score reaches 19. *)
Definition fragile : Strategy nat :=
  fun _ s _ _ e =>
    if 19 <=? s then Raises (OtherError "strategy failed") e
    else Returns (false, 0, false) e.

(** The first set asks the trainee twice and the trainee wins it; every
    later set asks once and the opponent wins. *)
Definition set_number (e : nat) : Play nat :=
  match e with
  | O =>
      Decide hand 12 9 false (fun _ =>
      Decide hand 19 9 true (fun _ => Return (Some MLTrainee)))
  | S _ => Decide hand 8 10 false (fun _ => Return (Some Opponent))
  end.

#[export] Instance outside : Outside nat := {|
  random_random e := (0, e);
  random_sample e := (Nat.even e, e);
  timer e := (inject_Z (Z.of_nat e), e);
  bls := stand_on_17;
  rds := play_last;
  setup_game e := e;
  prepare_next_game e := S e;
  play_a_set _ _ := Engine (fun e => e) set_number
|}.

(** The process right after the module is loaded. *)
Definition fresh : World nat :=
  {| dataset := initial_dataset; files := ∅; ext := O |}.

(** The process after a run that the failing strategy has aborted. *)
Definition aborted : World nat :=
  final_state (create_dataset 1 (Some fragile) fresh).

(** The process after one complete run of one set. *)
Definition after_one_run : World nat :=
  final_state (create_dataset 1 None fresh).

(** A set that asks nothing. *)
Definition silent (winner : option Player) : Play nat := Return winner.

(** A set with one decision that ends in a draw. *)
Definition drawn : Play nat :=
  Decide hand 18 18 true (fun _ => Return None).

(** The world after a set has been played, before it is resolved. *)
Definition won : World nat :=
  final_state (run_set None (set_number 0) fresh).

Definition lost : World nat :=
  final_state (run_set None (set_number 1) fresh).

Definition tied : World nat :=
  final_state (run_set None drawn fresh).

(** One recorded decision, as a dataset file has it after a won set. *)
Definition one_row : DataFrame :=
  [ {| self_score := Num 10; opp_score := Num 5; opp_stands := Flag false;
       result_card_val := Num 2; result_stand := Flag true;
       score := Num 1 |} ].

(** Two recorded decisions of a won set, as a dataset file has them. *)
Definition won_rows : DataFrame :=
  [ {| self_score := Num 10; opp_score := Num 5; opp_stands := Flag false;
       result_card_val := Num 2; result_stand := Flag false;
       score := Num (3 # 10) |};
    {| self_score := Num 12; opp_score := Num 5; opp_stands := Flag false;
       result_card_val := Num 0; result_stand := Flag true;
       score := Num 1 |} ].

(** A split in the proportions of the library, a quarter of the rows
    (rounded up) for the test, but without the shuffle: the first rows
    train, the last ones test; with less than two rows nothing is left
    to train on and the split raises. *)
Definition split_in_order (X : Frame) (y : list cell)
  : exn + (Frame * Frame * list cell * list cell) :=
  let n := length y in
  let n_train := (n - (n + 3) / 4)%nat in
  if (n_train =? 0)%nat then inl ValueError
  else
    inr ((fun p : string * list cell => (fst p, take n_train (snd p))) <$> X,
         (fun p : string * list cell => (fst p, drop n_train (snd p))) <$> X,
         take n_train y, drop n_train y).

(** A regressor that learns the labels by heart. *)
#[export] Instance by_heart : Sklearn (list cell) := {|
  train_test_split := split_in_order;
  fit _ _ y := inr y;
  r2_score _ _ _ := inr 1%Q;
  is_decision_tree _ := true;
  export_graphviz _ _ := inr "digraph Tree {}"
|}.

End Scenario.

(** ** The two shorthands and their files *)

(** The file names of [pazaak_constants.py] that the shorthands use. *)
Definition DECISION_TREE_DEFAULT_DATASET : string := "resources/result_80.csv".
Definition DECISION_TREE_DEFAULT_MODEL : string := "resources/model_dt.joblib".
Definition RANDOM_FOREST_DEFAULT_DATASET : string := "resources/result_95.csv".
Definition RANDOM_FOREST_DEFAULT_MODEL : string := "resources/model_rf.joblib".

(** The two estimators the module constructs, each from [max_depth] and
    [random_state]; [isinstance(_, DecisionTreeRegressor)] holds of the
    first and not of the second. *)
Class Estimators (Model : Type) `{!Sklearn Model} : Type := {
  DecisionTreeRegressor : Z -> Z -> Model;
  RandomForestRegressor : Z -> Z -> Model;
  tree_is_tree :
    forall d s, is_decision_tree (DecisionTreeRegressor d s) = true;
  forest_is_no_tree :
    forall d s, is_decision_tree (RandomForestRegressor d s) = false
}.

Section Presets.

Context {Model : Type} `{!Sklearn Model} `{!Estimators Model}.

(** [train_decision_tree], lines 133-137: the score is dropped, an
    exception of [train_model] is not caught. *)
Definition train_decision_tree (csvs : gmap string CsvFile)
    (out : Artifacts Model) : exn + Artifacts Model :=
  r ← train_model (DecisionTreeRegressor 3 42)
        DECISION_TREE_DEFAULT_DATASET DECISION_TREE_DEFAULT_MODEL csvs out;
  mret (snd r).

(** [train_random_forest], lines 140-144. *)
Definition train_random_forest (csvs : gmap string CsvFile)
    (out : Artifacts Model) : exn + Artifacts Model :=
  r ← train_model (RandomForestRegressor 4 42)
        RANDOM_FOREST_DEFAULT_DATASET RANDOM_FOREST_DEFAULT_MODEL csvs out;
  mret (snd r).

(** [train_model] called with no argument: the defaults of lines
    89-91. *)
Definition train_model_default (csvs : gmap string CsvFile)
    (out : Artifacts Model) : exn + (Q * Artifacts Model) :=
  train_model (DecisionTreeRegressor 3 42) DATASET_FILE_NAME MODEL_FILE_NAME
    csvs out.

End Presets.

(** ** Notions the facts are stated with *)

(** The five scores lines 66-76 hand out. *)
Definition reward (c : cell) : bool :=
  match c with
  | Num q => existsb (Qeq_bool q) [1; 3 # 10; 0; - 3 # 10; -1]%Q
  | _ => false
  end.

(** The cells of a recorded row are what lines 164-171 put there: three
    numbers and two truth values. *)
Definition typed (r : Row) : bool :=
  is_num (self_score r) && is_num (opp_score r) && is_flag (opp_stands r)
  && is_num (result_card_val r) && is_flag (result_stand r).

(** A row as the recorder leaves it. *)
Definition recorded (r : Row) : bool := typed r && isna (score r).

(** A row as a finished set leaves it: no cell is missing and the score
    is one of the five. *)
Definition scored (r : Row) : bool := complete r && reward (score r).

(** The frame of features of a dataset: the five columns the regressor
    is given for it. *)
Definition feature_frame (rows : DataFrame) : Frame :=
  [("self_score", self_score <$> rows);
   ("opp_stands", opp_stands <$> rows);
   ("result_stand", result_stand <$> rows);
   ("score_difference", score_difference <$> rows);
   ("score_if_card_played", score_if_card_played <$> rows)].

Section TrainingNotions.

Context {Model : Type} `{!Sklearn Model}.

(** [fitted] is what fitting [regressor] gives on the training part of
    the features and the label of the file [f]. *)
Definition trained_on (regressor : Model) (f : CsvFile) (fitted : Model)
  : Prop :=
  exists X y X_train X_test y_train y_test,
    engineer (read_csv f) = inr (X, y) /\
    train_test_split X y = inr (X_train, X_test, y_train, y_test) /\
    fit regressor X_train y_train = inr fitted.

(** The exception [e] comes from the split, the fit, the score or the
    export of the graph, on the features [X] and the label [y]. *)
Definition raised_in_training (regressor : Model) (X : Frame)
    (y : list cell) (e : exn) : Prop :=
  train_test_split X y = inl e \/
  exists X_train X_test y_train y_test,
    train_test_split X y = inr (X_train, X_test, y_train, y_test) /\
    (fit regressor X_train y_train = inl e \/
     exists fitted,
       fit regressor X_train y_train = inr fitted /\
       (r2_score fitted X_test y_test = inl e \/
        (is_decision_tree regressor = true /\
         export_graphviz fitted feature_names = inl e))).

End TrainingNotions.

(** What [drop(columns=cs)] leaves of a frame. *)
Definition without (cs : list string) (df : Frame) : Frame :=
  List.filter (fun p : string * list cell => negb (bool_decide (fst p ∈ cs)))
    df.

(** Row by row, a frame [df'] still has what [df] had. *)
Definition rows_kept (df df' : DataFrame) : Prop :=
  forall i r, df !! i = Some r -> exists r', df' !! i = Some r' /\ kept r r'.

(** How a set has ended for the trainee, as lines 66-76 tell it from
    the winner. *)
Definition is_win (winner : option Player) : bool :=
  match winner with
  | Some p => String.eqb (name p) "MLTrainee"
  | None => false
  end.

Definition is_draw (winner : option Player) : bool :=
  match winner with
  | Some _ => false
  | None => true
  end.

Definition is_loss (winner : option Player) : bool :=
  match winner with
  | Some p => negb (String.eqb (name p) "MLTrainee")
  | None => false
  end.

Section RunNotions.

Context {E : Type} `{!Outside E}.

(** The winners the engine has returned, turn by turn of the loop. *)
Fixpoint winners_per_set (strategy_func : option (Strategy E)) (n : nat)
    (t : Tally) (w : World E) : list (option Player) :=
  match n with
  | O => []
  | S n' =>
      match run_set strategy_func (fst (seated w)) (snd (seated w)) with
      | Raises _ _ => []
      | Returns winner _ =>
          winner ::
          match play_one_set strategy_func t w with
          | Raises _ _ => []
          | Returns t' w' => winners_per_set strategy_func n' t' w'
          end
      end
  end.

End RunNotions.

(** ** A second small world, for the pipeline *)

Module Workshop.

(** A model is the kind of the estimator ([true] for a tree) and the
    labels it has seen. *)
#[export] Instance rote : Sklearn (bool * list cell) := {|
  train_test_split := Scenario.split_in_order;
  fit m _ y := inr (fst m, y);
  r2_score _ _ _ := inr (1 # 2)%Q;
  is_decision_tree m := fst m;
  export_graphviz _ _ := inr "digraph Tree {}"
|}.

#[export] Instance rote_estimators : Estimators (bool * list cell) := {|
  DecisionTreeRegressor _ _ := (true, []);
  RandomForestRegressor _ _ := (false, []);
  tree_is_tree _ _ := eq_refl;
  forest_is_no_tree _ _ := eq_refl
|}.

Definition nothing_trained : Artifacts (bool * list cell) :=
  {| models := ∅; graphs := ∅ |}.

Definition two_rows : DataFrame :=
  [ {| self_score := Num 10; opp_score := Num 5; opp_stands := Flag false;
       result_card_val := Num 2; result_stand := Flag false;
       score := Num (3 # 10) |};
    {| self_score := Num 12; opp_score := Num 5; opp_stands := Flag false;
       result_card_val := Num 0; result_stand := Flag true;
       score := Num 1 |} ].

Definition three_rows : DataFrame :=
  two_rows ++
  [ {| self_score := Num 8; opp_score := Num 10; opp_stands := Flag true;
       result_card_val := Num 0; result_stand := Flag false;
       score := Num (-1) |} ].

(** Both preset dataset files are there. *)
Definition both_presets : gmap string CsvFile :=
  <[DECISION_TREE_DEFAULT_DATASET := to_csv two_rows]>
    (<[RANDOM_FOREST_DEFAULT_DATASET := to_csv three_rows]> ∅).

(** A strategy that plays the fifth card, which a hand of four does
    not have. *)
Definition play_fifth : Strategy nat :=
  fun _ _ _ _ e => Returns (true, 4, false) e.

(** The state in which the failing strategy has left the first set. *)
Definition broken_set : World nat :=
  final_state
    (@run_set nat Scenario.outside (Some Scenario.fragile)
       (Scenario.set_number 0) Scenario.fresh).

(** A frame without the column [opp_score]. *)
Definition no_opp_score : Frame :=
  [("self_score", [Num 10]); ("result_card_val", [Num 2]);
   ("score", [Num 1])].

(** A frame with one more column than the dataset has. *)
Definition with_turn : Frame :=
  [("turn", [Num 1]); ("self_score", [Num 10]); ("opp_score", [Num 5]);
   ("result_card_val", [Num 2]); ("score", [Num 1])].

(** A frame whose two score columns hold booleans. *)
Definition boolean_scores : Frame :=
  [("self_score", [Flag true; Flag false]);
   ("opp_score", [Flag false; Flag false]);
   ("result_card_val", [Num 2; Num 0]); ("score", [Num 1; Num 1])].

(** A frame whose [self_score] and [result_card_val] hold booleans. *)
Definition boolean_cards : Frame :=
  [("self_score", [Flag true; Flag false]); ("opp_score", [Num 5; Num 5]);
   ("result_card_val", [Flag true; Flag false]); ("score", [Num 1; Num 1])].

(** A frame whose [self_score] mixes a number and a boolean, which makes
    it a column of text, next to an [opp_score] without values. *)
Definition text_scores : Frame :=
  [("self_score", [Num 10; Flag true]); ("opp_score", [NaN; NaN]);
   ("result_card_val", [Num 2; Num 0]); ("score", [Num 1; Num 1])].

End Workshop.

(** * Facts *)

(** ** The frame operations *)

Lemma length_fillna (v : Q) (df : DataFrame) :
  length (fillna v df) = length df.
Proof. unfold fillna. apply length_fmap. Qed.

Lemma fillna_app (v : Q) (df1 df2 : DataFrame) :
  fillna v (df1 ++ df2) = fillna v df1 ++ fillna v df2.
Proof. unfold fillna. apply fmap_app. Qed.

Lemma fillna_cell_present (v : Q) (c : cell) :
  isna c = false -> fillna_cell v c = c.
Proof. unfold fillna_cell. intros ->. reflexivity. Qed.

Lemma fillna_cell_filled (v : Q) (c : cell) : isna (fillna_cell v c) = false.
Proof. destruct c; reflexivity. Qed.

(** A row that misses nothing is left alone by [fillna]. *)
Lemma fillna_row_complete (v : Q) (r : Row) :
  complete r = true -> fillna_row v r = r.
Proof.
  destruct r as [a b c d e f]. unfold complete, fillna_row. simpl.
  rewrite !andb_true_iff, !negb_true_iff.
  intros (Ha & Hb & Hc & Hd & He & Hf & _).
  rewrite !fillna_cell_present by assumption. reflexivity.
Qed.

Lemma fillna_complete (v : Q) (df : DataFrame) :
  Forall (fun r => complete r = true) df -> fillna v df = df.
Proof.
  unfold fillna. induction 1 as [|r df Hr _ IH]; simpl.
  - reflexivity.
  - rewrite fillna_row_complete by assumption. f_equal. exact IH.
Qed.

(** After [fillna] no row misses anything. *)
Lemma complete_fillna_row (v : Q) (r : Row) : complete (fillna_row v r) = true.
Proof.
  destruct r as [a b c d e f]. unfold complete, fillna_row. simpl.
  rewrite !fillna_cell_filled. reflexivity.
Qed.

Lemma complete_fillna (v : Q) (df : DataFrame) :
  Forall (fun r => complete r = true) (fillna v df).
Proof.
  unfold fillna. apply Forall_fmap, Forall_forall. intros r _. simpl.
  apply complete_fillna_row.
Qed.

Lemma complete_set_score (x : Q) (r : Row) :
  complete r = true -> complete (set_score (Num x) r) = true.
Proof.
  destruct r as [a b c d e f]. unfold complete, set_score. simpl.
  rewrite !andb_true_iff. tauto.
Qed.

Lemma pending_recorded_row (s o : Z) (st : bool) (v : Z) (sd : bool) :
  pending (recorded_row s o st v sd) = true.
Proof. reflexivity. Qed.

Lemma fillna_row_pending (v : Q) (r : Row) :
  pending r = true -> fillna_row v r = set_score (Num v) r.
Proof.
  destruct r as [a b c d e f].
  unfold pending, has_features, fillna_row, set_score. simpl.
  rewrite !andb_true_iff, !negb_true_iff.
  intros (Hf & Ha & Hb & Hc & Hd & He & _).
  rewrite !fillna_cell_present by assumption.
  destruct f; try discriminate. reflexivity.
Qed.

Lemma fillna_pending (v : Q) (df : DataFrame) :
  Forall (fun r => pending r = true) df ->
  fillna v df = set_score (Num v) <$> df.
Proof.
  unfold fillna. induction 1 as [|r df Hr _ IH]; simpl.
  - reflexivity.
  - rewrite fillna_row_pending by assumption. f_equal. exact IH.
Qed.

Lemma set_score_set_score (x y : cell) (r : Row) :
  set_score x (set_score y r) = set_score x r.
Proof. reflexivity. Qed.

Lemma features_set_score (x : cell) (r : Row) :
  features (set_score x r) = features r.
Proof. reflexivity. Qed.

Lemma score_set_score (x : cell) (r : Row) : score (set_score x r) = x.
Proof. reflexivity. Qed.

Lemma iloc_set_last_score_nil (x : Q) :
  iloc_set_last_score x [] = inl IndexError.
Proof. reflexivity. Qed.

(** [iloc[-1, 5]] reaches the last row and no other. *)
Lemma iloc_set_last_score_snoc (x : Q) (df : DataFrame) (r : Row) :
  iloc_set_last_score x (df ++ [r]) = inr (df ++ [set_score (Num x) r]).
Proof.
  unfold iloc_set_last_score. rewrite last_snoc, length_app. simpl.
  replace (Nat.pred (length df + 1)) with (length df + 0)%nat by lia.
  rewrite insert_app_r. reflexivity.
Qed.

Lemma snoc_cases {A : Type} (l : list A) :
  l = [] \/ exists l' x, l = l' ++ [x].
Proof.
  destruct (last l) as [x|] eqn:Hl.
  - right. apply last_Some in Hl. destruct Hl as [l' ->]. eauto.
  - left. apply last_None. exact Hl.
Qed.

(** ** The recorder *)

Section RecorderFacts.

Context {E : Type} `{!Outside E}.

Implicit Types (w : World E) (sf : option (Strategy E)) (h : list Z).

(** The double [0.9] separates the draws exactly as the rational [9/10]
    does. *)
Lemma lt_0_9_exact (k : float53) :
  lt_0_9 k = true <-> (float53_value k < 9 # 10)%Q.
Proof.
  unfold lt_0_9, float53_value, Qlt. simpl.
  rewrite Z.ltb_lt. lia.
Qed.

(** The share of the draws [0 <= k < 2^53] that select the heuristic is
    [8106479329266893 / 2^53], within [2^-53] of [9/10]. *)
Lemma heuristic_share :
  (9 # 10 < 8106479329266893 # 2 ^ 53)%Q /\
  ((8106479329266893 # 2 ^ 53) - (9 # 10) < 1 # 2 ^ 53)%Q.
Proof. split; vm_compute; reflexivity. Qed.

(** C6. With no strategy supplied, a call of the recorder makes one draw
    of the generator, its own, and plays the heuristic [bls] exactly when
    that draw is below 0.9 and the random strategy [rds] otherwise; the
    strategy then runs on the generator as the draw has left it, so the
    next call draws afresh. *)
Theorem record_results_mixture h (s o : Z) (st : bool) w :
  let u := fst (random_random (ext w)) in
  let e' := snd (random_random (ext w)) in
  select_strategy None (ext w) =
    (if Qlt_le_dec (float53_value u) (9 # 10) then bls else rds, e') /\
  record_results h s o st None w =
    record_results h s o st
      (Some (if Qlt_le_dec (float53_value u) (9 # 10) then bls else rds))
      (with_ext e' w).
Proof.
  intros u e'. subst u e'.
  assert (Hsel : select_strategy None (ext w) =
    (if Qlt_le_dec (float53_value (fst (random_random (ext w)))) (9 # 10)
     then bls else rds, snd (random_random (ext w)))).
  { unfold select_strategy. destruct (random_random (ext w)) as [u e'].
    simpl. f_equal.
    destruct (Qlt_le_dec (float53_value u) (9 # 10)) as [Hlt|Hge].
    - apply lt_0_9_exact in Hlt. rewrite Hlt. reflexivity.
    - destruct (lt_0_9 u) eqn:Hu; [|reflexivity].
      apply lt_0_9_exact in Hu. exfalso.
      exact (Qlt_not_le _ _ Hu Hge). }
  split; [exact Hsel|].
  unfold record_results. rewrite Hsel. reflexivity.
Qed.

(** A strategy that is supplied is used as it is, and no draw is made. *)
Lemma select_strategy_given (f : Strategy E) (e : E) :
  select_strategy (Some f) e = (f, e).
Proof. reflexivity. Qed.

(** C7. A call of the recorder in which the delegated strategy produces
    a decision (and, when the decision plays a card, the chosen index
    addresses a card of the hand) appends exactly one row: its score is
    missing, its context is the one passed in, its card value is the
    value of the hand card at the chosen index when a card is played and
    0 otherwise; and the call returns the strategy's triple. *)
Theorem record_results_appends_one h (s o : Z) (st : bool) sf w
    (f : Strategy E) (e1 e2 : E) (play_card stand : bool)
    (card_index v : Z) :
  select_strategy sf (ext w) = (f, e1) ->
  f h s o st e1 = Returns (play_card, card_index, stand) e2 ->
  (play_card = true -> py_getitem h card_index = Some v) ->
  (play_card = false -> v = 0) ->
  exists w',
    record_results h s o st sf w = Returns (play_card, card_index, stand) w' /\
    dataset w' =
      dataset w ++
      [ {| self_score := Num (inject_Z s);
           opp_score := Num (inject_Z o);
           opp_stands := Flag st;
           result_card_val := Num (inject_Z v);
           result_stand := Flag stand;
           score := NaN |} ] /\
    files w' = files w /\
    ext w' = e2.
Proof.
  intros Hsel Hf Hplay Hskip.
  unfold record_results. rewrite Hsel, Hf.
  destruct play_card.
  - rewrite (Hplay eq_refl). eexists. split; [reflexivity|].
    simpl. auto.
  - rewrite (Hskip eq_refl). eexists. split; [reflexivity|].
    simpl. auto.
Qed.

(** C10. When the delegated strategy raises, the call raises the same
    exception and the dataset is the one the call found. *)
Theorem record_results_strategy_raises h (s o : Z) (st : bool) sf w
    (f : Strategy E) (e1 e2 : E) (x : exn) :
  select_strategy sf (ext w) = (f, e1) ->
  f h s o st e1 = Raises x e2 ->
  exists w',
    record_results h s o st sf w = Raises x w' /\
    dataset w' = dataset w /\
    files w' = files w.
Proof.
  intros Hsel Hf. unfold record_results. rewrite Hsel, Hf.
  eexists. split; [reflexivity|]. simpl. auto.
Qed.

(** An index outside the hand raises before anything is appended. *)
Lemma record_results_bad_index h (s o : Z) (st : bool) sf w
    (f : Strategy E) (e1 e2 : E) (stand : bool) (card_index : Z) :
  select_strategy sf (ext w) = (f, e1) ->
  f h s o st e1 = Returns (true, card_index, stand) e2 ->
  py_getitem h card_index = None ->
  record_results h s o st sf w = Raises IndexError (with_ext e2 w).
Proof.
  intros Hsel Hf Hidx. unfold record_results. rewrite Hsel, Hf, Hidx.
  reflexivity.
Qed.

(** Whatever a call does, it leaves the old rows and the files alone,
    and what it adds when it returns is one pending row. *)
Lemma record_results_final h (s o : Z) (st : bool) sf w :
  match record_results h s o st sf w with
  | Returns _ w' =>
      exists r, dataset w' = dataset w ++ [r] /\ pending r = true /\
                files w' = files w
  | Raises _ w' => dataset w' = dataset w /\ files w' = files w
  end.
Proof.
  unfold record_results.
  destruct (select_strategy sf (ext w)) as [f e1].
  destruct (f h s o st e1) as [[[pc ci] sd] e2|x e2]; [|simpl; auto].
  destruct (if pc then py_getitem h ci else Some 0) as [v|]; [|simpl; auto].
  eexists. simpl. unfold append. split; [reflexivity|].
  split; [apply pending_recorded_row|reflexivity].
Qed.

End RecorderFacts.

(** ** One set: the rows it records and how they are resolved *)

(** [fillna] alone, on a frame that ends with pending rows. *)
Lemma fillna_new_rows (v : Q) (old new : DataFrame) (i : nat) (r : Row) :
  Forall (fun r => pending r = true) new ->
  new !! i = Some r ->
  fillna v (old ++ new) !! (length old + i)%nat = Some (set_score (Num v) r).
Proof.
  intros Hnew Hi.
  rewrite fillna_app, (fillna_pending v new) by assumption.
  rewrite lookup_app_r by (rewrite length_fillna; lia).
  rewrite length_fillna.
  replace (length old + i - length old)%nat with i by lia.
  rewrite list_lookup_fmap, Hi. reflexivity.
Qed.

(** [fillna] and then [iloc[-1, 5]], on a frame that ends with at least
    one pending row. *)
Lemma fill_then_last (v x : Q) (old new : DataFrame) :
  Forall (fun r => pending r = true) new ->
  new <> [] ->
  exists df',
    iloc_set_last_score x (fillna v (old ++ new)) = inr df' /\
    length df' = (length old + length new)%nat /\
    (forall i, (i < length old)%nat -> df' !! i = fillna v old !! i) /\
    (forall i r, new !! i = Some r ->
       df' !! (length old + i)%nat =
       Some (set_score
               (Num (if decide (S i = length new) then x else v)) r)).
Proof.
  intros Hnew Hne.
  destruct (snoc_cases new) as [->|(init & l & ->)]; [congruence|].
  apply Forall_app in Hnew. destruct Hnew as [Hinit Hl].
  apply Forall_inv in Hl.
  rewrite app_assoc, fillna_app. unfold fillna at 2. simpl.
  rewrite iloc_set_last_score_snoc, fillna_row_pending by assumption.
  rewrite set_score_set_score, fillna_app, (fillna_pending v init)
    by assumption.
  eexists. split; [reflexivity|].
  split; [|split].
  - rewrite !length_app, length_fillna, length_fmap. simpl. lia.
  - intros i Hi. rewrite <- app_assoc.
    apply lookup_app_l. rewrite length_fillna. exact Hi.
  - intros i r Hi. rewrite <- app_assoc.
    rewrite lookup_app_r by (rewrite length_fillna; lia).
    rewrite length_fillna, length_app. simpl.
    replace (length old + i - length old)%nat with i by lia.
    apply lookup_app_Some in Hi.
    destruct Hi as [Hi|[Hlen Hi]].
    + assert (i < length init)%nat by (eapply lookup_lt_Some; eassumption).
      rewrite lookup_app_l by (rewrite length_fmap; assumption).
      rewrite list_lookup_fmap, Hi. simpl.
      destruct (decide (S i = (length init + 1)%nat)); [lia|reflexivity].
    + destruct (i - length init)%nat as [|j] eqn:Hj; [|discriminate].
      simpl in Hi. injection Hi as <-.
      rewrite lookup_app_r by (rewrite length_fmap; lia).
      rewrite length_fmap, Hj. simpl.
      destruct (decide (S i = (length init + 1)%nat)); [reflexivity|lia].
Qed.

Section SetFacts.

Context {E : Type} `{!Outside E}.

Implicit Types (w : World E) (sf : option (Strategy E)) (p : Play E).

(** However a set ends, it has only appended pending rows, one for each
    recorded decision. *)
Lemma run_set_final sf p w :
  exists new,
    dataset (final_state (run_set sf p w)) = dataset w ++ new /\
    Forall (fun r => pending r = true) new /\
    length new = decisions sf p w /\
    files (final_state (run_set sf p w)) = files w.
Proof.
  revert w. induction p as [winner|e|next k IH|h s o st k IH]; intros w.
  - exists []. simpl. rewrite app_nil_r. auto.
  - exists []. simpl. rewrite app_nil_r. auto.
  - simpl. destruct (IH (ext w) (with_ext (next (ext w)) w))
      as (new & Hds & Hnew & Hlen & Hfs).
    exists new. auto.
  - simpl. pose proof (record_results_final h s o st sf w) as Hrec.
    destruct (record_results h s o st sf w) as [d w'|x w'].
    + destruct Hrec as (r & Hds & Hr & Hfs).
      destruct (IH d w') as (new & Hds' & Hnew & Hlen & Hfs').
      exists (r :: new). rewrite Hds', Hds, <- app_assoc. simpl.
      split; [reflexivity|]. split; [constructor; assumption|].
      split; [congruence|]. congruence.
    + destruct Hrec as [Hds Hfs]. exists []. simpl.
      rewrite app_nil_r. auto.
Qed.

Lemma run_set_returns sf p w winner w1 :
  run_set sf p w = Returns winner w1 ->
  exists new,
    dataset w1 = dataset w ++ new /\
    Forall (fun r => pending r = true) new /\
    length new = decisions sf p w /\
    files w1 = files w.
Proof.
  intros Hrun. pose proof (run_set_final sf p w) as Hfin.
  rewrite Hrun in Hfin. exact Hfin.
Qed.

(** The resolution of a set: the pending rows at the end of the frame get
    the partial score, the last of them the full one; the rows before
    them only see [fillna]. *)
Lemma resolve_rows (winner : option Player) (t : Tally) w
    (old new : DataFrame) :
  dataset w = old ++ new ->
  Forall (fun r => pending r = true) new ->
  new <> [] \/ winner = None ->
  exists t' w',
    resolve winner t w = Returns t' w' /\
    files w' = files w /\ ext w' = ext w /\
    length (dataset w') = (length old + length new)%nat /\
    (forall i, (i < length old)%nat ->
       dataset w' !! i = fillna (partial_score winner) old !! i) /\
    (forall i r, new !! i = Some r ->
       dataset w' !! (length old + i)%nat =
       Some (set_score
               (Num (if decide (S i = length new) then last_score winner
                     else partial_score winner)) r)).
Proof.
  intros Hds Hnew Hcase. unfold resolve. rewrite Hds.
  destruct winner as [pl|].
  - destruct Hcase as [Hne|?]; [|discriminate]. simpl.
    destruct (String.eqb (name pl) "MLTrainee").
    + destruct (fill_then_last (3 # 10) 1 old new Hnew Hne)
        as (df' & -> & Hlen & Hold & Hrows).
      eexists _, _. split; [reflexivity|]. simpl. auto.
    + destruct (fill_then_last (- 3 # 10) (-1) old new Hnew Hne)
        as (df' & -> & Hlen & Hold & Hrows).
      eexists _, _. split; [reflexivity|]. simpl. auto.
  - eexists _, _. split; [reflexivity|]. simpl.
    split; [reflexivity|]. split; [reflexivity|].
    split; [rewrite length_fillna; apply length_app|].
    split.
    + intros i Hi. rewrite fillna_app.
      apply lookup_app_l. rewrite length_fillna. exact Hi.
    + intros i r Hi. rewrite (fillna_new_rows 0 old new i r Hnew Hi).
      destruct (decide (S i = length new)); reflexivity.
Qed.

End SetFacts.

Section ShapingFacts.

Context {E : Type} `{!Outside E}.

Implicit Types (w : World E) (sf : option (Strategy E)) (p : Play E).

(** C1. When a set ends with the trainee as the winner, the resolution
    returns, and of the rows the set has appended (all of them recorded
    with a missing score) the last one gets score 1 and every other one
    gets score 0.3; the other cells of these rows stay as recorded. *)
Theorem win_scores sf p w (winner : Player) w1 (t : Tally) :
  run_set sf p w = Returns (Some winner) w1 ->
  name winner = "MLTrainee" ->
  exists new,
    dataset w1 = dataset w ++ new /\
    length new = decisions sf p w /\
    forall i r, new !! i = Some r ->
      score r = NaN /\
      exists t' w2,
        resolve (Some winner) t w1 = Returns t' w2 /\
        dataset w2 !! (length (dataset w) + i)%nat =
        Some (set_score
                (Num (if decide (S i = length new) then 1 else 3 # 10)) r).
Proof.
  intros Hrun Hname.
  destruct (run_set_returns sf p w _ w1 Hrun) as (new & Hds & Hnew & Hlen & _).
  exists new. split; [exact Hds|]. split; [exact Hlen|].
  intros i r Hi. split.
  - rewrite Forall_lookup in Hnew. specialize (Hnew i r Hi).
    unfold pending in Hnew. apply andb_true_iff in Hnew.
    destruct Hnew as [Hs _]. destruct (score r); try discriminate.
    reflexivity.
  - assert (Hne : new <> []) by (intros ->; discriminate).
    destruct (resolve_rows (Some winner) t w1 (dataset w) new Hds Hnew
                (or_introl Hne))
      as (t' & w2 & Hres & _ & _ & _ & _ & Hrows).
    exists t', w2. split; [exact Hres|].
    rewrite (Hrows i r Hi). simpl. rewrite Hname. reflexivity.
Qed.

(** C2. When a set ends with another winner than the trainee, the
    resolution returns, and of the rows the set has appended the last one
    gets score -1 and every other one gets score -0.3; when the set ends
    in a draw (no winner), every row it has appended gets score 0. *)
Theorem loss_and_draw_scores sf p w (winner : option Player) w1
    (t : Tally) :
  run_set sf p w = Returns winner w1 ->
  (forall pl, winner = Some pl -> name pl <> "MLTrainee") ->
  exists new,
    dataset w1 = dataset w ++ new /\
    length new = decisions sf p w /\
    forall i r, new !! i = Some r ->
      score r = NaN /\
      exists t' w2,
        resolve winner t w1 = Returns t' w2 /\
        dataset w2 !! (length (dataset w) + i)%nat =
        Some (set_score
                (Num match winner with
                     | None => 0
                     | Some _ =>
                         if decide (S i = length new) then -1 else - 3 # 10
                     end) r).
Proof.
  intros Hrun Hname.
  destruct (run_set_returns sf p w _ w1 Hrun) as (new & Hds & Hnew & Hlen & _).
  exists new. split; [exact Hds|]. split; [exact Hlen|].
  intros i r Hi. split.
  - rewrite Forall_lookup in Hnew. specialize (Hnew i r Hi).
    unfold pending in Hnew. apply andb_true_iff in Hnew.
    destruct Hnew as [Hs _]. destruct (score r); try discriminate.
    reflexivity.
  - assert (Hne : new <> []) by (intros ->; discriminate).
    destruct (resolve_rows winner t w1 (dataset w) new Hds Hnew
                (or_introl Hne))
      as (t' & w2 & Hres & _ & _ & _ & _ & Hrows).
    exists t', w2. split; [exact Hres|].
    rewrite (Hrows i r Hi). destruct winner as [pl|]; simpl.
    + destruct (String.eqb_spec (name pl) "MLTrainee") as [Heq|_].
      * destruct (Hname pl eq_refl Heq).
      * reflexivity.
    + destruct (decide (S i = length new)); reflexivity.
Qed.

(** C3, as the code has it.  When the dataset holds no missing value as a
    set starts (no row is unresolved), and the set records at least one
    decision or ends in a draw, the resolution returns and changes
    nothing but the scores of the rows this set has appended: every row
    that was there before keeps all its cells, its score among them, and
    every row keeps its five other cells. *)
Theorem resolve_frame sf p w (winner : option Player) w1 (t : Tally) :
  run_set sf p w = Returns winner w1 ->
  Forall (fun r => complete r = true) (dataset w) ->
  (0 < decisions sf p w)%nat \/ winner = None ->
  exists t' w2,
    resolve winner t w1 = Returns t' w2 /\
    length (dataset w2) = length (dataset w1) /\
    (forall i r, dataset w !! i = Some r -> dataset w2 !! i = Some r) /\
    (forall i r, dataset w1 !! i = Some r ->
       exists r', dataset w2 !! i = Some r' /\ features r' = features r) /\
    files w2 = files w1.
Proof.
  intros Hrun Hold Hcase.
  destruct (run_set_returns sf p w _ w1 Hrun) as (new & Hds & Hnew & Hlen & _).
  assert (Hcase' : new <> [] \/ winner = None).
  { destruct Hcase as [Hpos|Hw]; [left|right; exact Hw].
    intros ->. simpl in Hlen. lia. }
  destruct (resolve_rows winner t w1 (dataset w) new Hds Hnew Hcase')
    as (t' & w2 & Hres & Hfs & _ & Hlen2 & Hkeep & Hrows).
  rewrite fillna_complete in Hkeep by exact Hold.
  exists t', w2. split; [exact Hres|].
  split; [rewrite Hlen2, Hds; symmetry; apply length_app|].
  split; [|split; [|exact Hfs]].
  - intros i r Hi. rewrite Hkeep by (eapply lookup_lt_Some; eassumption).
    exact Hi.
  - intros i r Hi. rewrite Hds in Hi. apply lookup_app_Some in Hi.
    destruct Hi as [Hi|[Hge Hi]].
    + exists r. split; [|reflexivity].
      rewrite Hkeep by (eapply lookup_lt_Some; eassumption). exact Hi.
    + eexists. split.
      * replace i with (length (dataset w) + (i - length (dataset w)))%nat
          at 1 by lia.
        apply Hrows. exact Hi.
      * apply features_set_score.
Qed.

End ShapingFacts.

(** ** A whole run *)

Lemma kept_refl (r : Row) : kept r r.
Proof. intros _. reflexivity. Qed.

Lemma kept_trans (r1 r2 r3 : Row) : kept r1 r2 -> kept r2 r3 -> kept r1 r3.
Proof.
  unfold kept, has_features. intros H12 H23 H1.
  specialize (H12 H1). rewrite H12 in H23. exact (H23 H1).
Qed.

Lemma kept_fillna_row (v : Q) (r : Row) : kept r (fillna_row v r).
Proof.
  destruct r as [a b c d e f]. unfold kept, has_features, fillna_row. simpl.
  rewrite !andb_true_iff, !negb_true_iff.
  intros (Ha & Hb & Hc & Hd & He & _).
  rewrite !fillna_cell_present by assumption. reflexivity.
Qed.

Lemma complete_resolved (r : Row) : complete r = true -> unresolved r = false.
Proof.
  destruct r as [a b c d e f]. unfold complete, unresolved. simpl.
  rewrite !andb_true_iff, !negb_true_iff. tauto.
Qed.

(** [iloc[-1, 5]] keeps the length, the completeness and the features. *)
Lemma iloc_set_last_score_inr (x : Q) (df df' : DataFrame) :
  iloc_set_last_score x df = inr df' ->
  length df' = length df /\
  (Forall (fun r => complete r = true) df ->
   Forall (fun r => complete r = true) df') /\
  (forall i r, df !! i = Some r ->
     exists r', df' !! i = Some r' /\ features r' = features r).
Proof.
  unfold iloc_set_last_score.
  destruct (last df) as [l|] eqn:Hl; [|discriminate].
  intros [= <-]. split; [apply length_insert|]. split.
  - intros Hall. apply Forall_insert; [exact Hall|].
    apply complete_set_score.
    apply last_Some_elem_of in Hl.
    rewrite Forall_forall in Hall. apply Hall, Hl.
  - intros i r Hi.
    destruct (decide (Nat.pred (length df) = i)) as [<-|Hne].
    + rewrite last_lookup in Hl. rewrite Hl in Hi. injection Hi as ->.
      eexists. split; [|apply features_set_score].
      apply list_lookup_insert_eq.
      eapply lookup_lt_Some. exact Hl.
    + exists r. split; [|reflexivity].
      rewrite list_lookup_insert_ne by exact Hne. exact Hi.
Qed.

Section RunFacts.

Context {E : Type} `{!Outside E}.

Implicit Types (w : World E) (sf : option (Strategy E)) (t : Tally).

(** A resolution that returns leaves no missing value in the frame, adds
    and removes no row, and keeps the features that were present. *)
Lemma resolve_returns (winner : option Player) t w t' w' :
  resolve winner t w = Returns t' w' ->
  length (dataset w') = length (dataset w) /\
  Forall (fun r => complete r = true) (dataset w') /\
  (forall i r, dataset w !! i = Some r ->
     exists r', dataset w' !! i = Some r' /\ kept r r') /\
  files w' = files w.
Proof.
  assert (Hfill : forall v i r, dataset w !! i = Some r ->
            fillna v (dataset w) !! i = Some (fillna_row v r)).
  { intros v i r Hi. unfold fillna. rewrite list_lookup_fmap, Hi.
    reflexivity. }
  assert (Hlast : forall v x df', 
            iloc_set_last_score x (fillna v (dataset w)) = inr df' ->
            length df' = length (dataset w) /\
            Forall (fun r => complete r = true) df' /\
            (forall i r, dataset w !! i = Some r ->
               exists r', df' !! i = Some r' /\ kept r r')).
  { intros v x df' Hset.
    destruct (iloc_set_last_score_inr _ _ _ Hset) as (Hlen & Hall & Hrows).
    split; [rewrite Hlen; apply length_fillna|].
    split; [apply Hall, complete_fillna|].
    intros i r Hi. destruct (Hrows i _ (Hfill v i r Hi)) as (r' & Hr' & Hf).
    exists r'. split; [exact Hr'|].
    intros Hr. rewrite Hf. apply kept_fillna_row. exact Hr. }
  unfold resolve. destruct winner as [pl|].
  - destruct (String.eqb (name pl) "MLTrainee").
    + destruct (iloc_set_last_score 1 _) as [e|df'] eqn:Hset; [discriminate|].
      intros [= <- <-]. simpl.
      destruct (Hlast _ _ _ Hset) as (? & ? & ?). auto.
    + destruct (iloc_set_last_score (-1) _) as [e|df'] eqn:Hset;
        [discriminate|].
      intros [= <- <-]. simpl.
      destruct (Hlast _ _ _ Hset) as (? & ? & ?). auto.
  - intros [= <- <-]. simpl.
    split; [apply length_fillna|]. split; [apply complete_fillna|].
    split; [|reflexivity].
    intros i r Hi. eexists. split; [apply Hfill; exact Hi|].
    apply kept_fillna_row.
Qed.

(** One turn of the loop that returns: the frame has grown by the
    decisions of that set and holds no missing value. *)
Lemma play_one_set_returns sf t w t' w' :
  play_one_set sf t w = Returns t' w' ->
  length (dataset w') =
    (length (dataset w) +
     decisions sf (fst (seated w)) (snd (seated w)))%nat /\
  Forall (fun r => complete r = true) (dataset w') /\
  (forall i r, dataset w !! i = Some r ->
     exists r', dataset w' !! i = Some r' /\ kept r r') /\
  files w' = files w.
Proof.
  unfold play_one_set.
  assert (Hseat : dataset (snd (seated w)) = dataset w /\
                  files (snd (seated w)) = files w).
  { unfold seated. destruct (random_sample (ext w)). simpl. auto. }
  destruct (seated w) as [p w0]. simpl in *. destruct Hseat as [Hds0 Hfs0].
  destruct (run_set sf p w0) as [winner w1|e w1] eqn:Hrun; [|discriminate].
  destruct (resolve winner t w1) as [t1 w2|e w2] eqn:Hres; [|discriminate].
  intros [= <- <-]. simpl.
  destruct (run_set_returns sf p w0 _ _ Hrun) as (new & Hds & _ & Hlen & Hfs).
  destruct (resolve_returns _ _ _ _ _ Hres) as (Hlen2 & Hall & Hrows & Hfs2).
  split; [rewrite Hlen2, Hds, length_app; congruence|].
  split; [exact Hall|]. split; [|congruence].
  intros i r Hi. apply Hrows. rewrite Hds, <- Hds0 in *.
  apply lookup_app_l_Some. exact Hi.
Qed.

(** The loop, when it returns. *)
Lemma play_sets_returns sf (n : nat) t w t' w' :
  play_sets sf n t w = Returns t' w' ->
  length (dataset w') =
    (length (dataset w) + sum_list (decisions_per_set sf n t w))%nat /\
  (Forall (fun r => complete r = true) (dataset w) \/ (0 < n)%nat ->
   Forall (fun r => complete r = true) (dataset w')) /\
  (forall i r, dataset w !! i = Some r ->
     exists r', dataset w' !! i = Some r' /\ kept r r') /\
  files w' = files w.
Proof.
  revert t w. induction n as [|n IH]; intros t w; simpl.
  - intros [= <- <-]. split; [lia|].
    split; [intros [Hall|Hn]; [exact Hall|lia]|].
    split; [|reflexivity].
    intros i r Hi. exists r. split; [exact Hi|apply kept_refl].
  - destruct (play_one_set sf t w) as [t1 w1|e w1] eqn:Hone; [|discriminate].
    intros Hrest.
    destruct (play_one_set_returns _ _ _ _ _ Hone)
      as (Hlen1 & Hall1 & Hrows1 & Hfs1).
    destruct (IH _ _ Hrest) as (Hlen & Hall & Hrows & Hfs).
    split; [rewrite Hlen, Hlen1; lia|].
    split; [intros _; apply Hall; left; exact Hall1|].
    split; [|congruence].
    intros i r Hi. destruct (Hrows1 i r Hi) as (r1 & Hi1 & Hk1).
    destruct (Hrows i r1 Hi1) as (r' & Hi' & Hk).
    exists r'. split; [exact Hi'|]. eapply kept_trans; eassumption.
Qed.

(** Once the loop has returned, [create_dataset] writes the file, reads
    the timer and divides: it ends in a report or in the division
    error, and in both cases its state is the state of the loop with the
    file written. *)
Lemma create_dataset_after_loop (n : Z) sf w t w1 :
  play_sets sf (Z.to_nat n) no_sets (started w) = Returns t w1 ->
  dataset (final_state (create_dataset n sf w)) = dataset w1 /\
  files (final_state (create_dataset n sf w)) =
    <[DATASET_FILE_NAME := to_csv (dataset w1)]> (files w1).
Proof.
  intros Hloop. unfold create_dataset. rewrite Hloop.
  destruct (timer (ext (persisted w1))) as [stop e3].
  destruct (py_truediv n (py_int (stop - fst (timer (ext w)))));
    simpl; auto.
Qed.

(** A float in [0, 1) truncates to 0. *)
Lemma py_int_small (x : Q) : (0 <= x)%Q -> (x < 1)%Q -> py_int x = 0.
Proof.
  unfold py_int, Qle, Qlt. destruct x as [a b]. simpl. intros Ha Hb.
  apply Z.quot_small. lia.
Qed.

(** A run that takes less than a second ends in the division error of
    line 82, after the file is written. *)
Lemma create_dataset_short_run (n : Z) sf w t w1 :
  play_sets sf (Z.to_nat n) no_sets (started w) = Returns t w1 ->
  (0 <= fst (timer (ext w1)) - fst (timer (ext w)))%Q ->
  (fst (timer (ext w1)) - fst (timer (ext w)) < 1)%Q ->
  create_dataset n sf w =
    Raises ZeroDivisionError
      (with_ext (snd (timer (ext w1))) (persisted w1)).
Proof.
  intros Hloop Hge Hlt. unfold create_dataset. rewrite Hloop.
  change (ext (persisted w1)) with (ext w1).
  destruct (timer (ext w1)) as [stop e3]. simpl in *.
  rewrite (py_int_small _ Hge Hlt). reflexivity.
Qed.

End RunFacts.

(** ** The pipeline *)

Lemma zip_with_fmap_same {A B C D : Type} (f : B -> C -> D)
    (g : A -> B) (h : A -> C) (l : list A) :
  zip_with f (g <$> l) (h <$> l) = (fun a => f (g a) (h a)) <$> l.
Proof. induction l as [|a l IH]; simpl; [reflexivity|]. f_equal. exact IH. Qed.

(** A column of numbers is read as numbers, and the arithmetic on two
    such columns goes through, row by row. *)
Lemma kind_of_numbers {A : Type} (f : A -> cell) (l : list A) :
  Forall (fun a => is_num (f a) = true) l -> kind_of (f <$> l) = Numbers.
Proof.
  intros Hall. unfold kind_of.
  replace (existsb is_str (f <$> l)) with false.
  - replace (existsb is_flag (f <$> l)) with false; [reflexivity|].
    induction Hall as [|a l Ha _ IH]; simpl; [reflexivity|].
    destruct (f a); try discriminate Ha. simpl. exact IH.
  - induction Hall as [|a l Ha _ IH]; simpl; [reflexivity|].
    destruct (f a); try discriminate Ha. simpl. exact IH.
Qed.

Lemma series_sub_numbers (a b : list cell) :
  kind_of a = Numbers -> kind_of b = Numbers ->
  series_sub a b = inr (zip_with cell_sub a b).
Proof. unfold series_sub. intros -> ->. reflexivity. Qed.

Lemma series_add_numbers (a b : list cell) :
  kind_of a = Numbers -> kind_of b = Numbers ->
  series_add a b = inr (zip_with cell_add a b).
Proof. unfold series_add. intros -> ->. reflexivity. Qed.

Lemma numeric_columns (rows : DataFrame) :
  Forall (fun r => numeric r = true) rows ->
  kind_of (self_score <$> rows) = Numbers /\
  kind_of (opp_score <$> rows) = Numbers /\
  kind_of (result_card_val <$> rows) = Numbers.
Proof.
  intros Hall.
  repeat split; apply kind_of_numbers;
    (eapply Forall_impl; [exact Hall|]); intros r Hr;
    unfold numeric in Hr; rewrite !andb_true_iff in Hr; tauto.
Qed.

(** C5, as the code has it.  For a dataset file with rows [rows] whose
    two scores and card value are numbers, the frame the regressor is
    fitted on has the columns [self_score], [opp_stands],
    [result_stand], [score_difference] and [score_if_card_played]:
    [opp_score] has given way to
    [score_difference = self_score - opp_score] and [result_card_val] to
    [score_if_card_played = self_score + result_card_val], while
    [self_score] is kept; each derived column is one function of the row
    applied row by row.  Whenever [train_model] gets through, the model
    it stores is the regressor fitted on the training part that the
    split has made of exactly these features and the [score] column. *)
Theorem train_model_features {Model : Type} `{!Sklearn Model}
    (regressor : Model) (dataset_file_name model_file_name : string)
    (csvs : gmap string CsvFile) (out : Artifacts Model)
    (rows : DataFrame) :
  csvs !! dataset_file_name = Some (to_csv rows) ->
  Forall (fun r => numeric r = true) rows ->
  let X := [("self_score", self_score <$> rows);
            ("opp_stands", opp_stands <$> rows);
            ("result_stand", result_stand <$> rows);
            ("score_difference", score_difference <$> rows);
            ("score_if_card_played", score_if_card_played <$> rows)] in
  let y := score <$> rows in
  engineer (read_csv (to_csv rows)) = inr (X, y) /\
  fst <$> X = feature_names /\
  forall r2 out',
    train_model regressor dataset_file_name model_file_name csvs out =
      inr (r2, out') ->
    exists X_train X_test y_train y_test fitted,
      train_test_split X y = inr (X_train, X_test, y_train, y_test) /\
      fit regressor X_train y_train = inr fitted /\
      models out' !! model_file_name = Some fitted.
Proof.
  intros Hfile Hnum X y.
  destruct (numeric_columns rows Hnum) as (Hs & Ho & Hc).
  assert (Heng : engineer (read_csv (to_csv rows)) = inr (X, y)).
  { unfold engineer, read_csv, to_csv, columns, column. simpl.
    rewrite (series_sub_numbers _ _ Hs Ho). simpl.
    rewrite (series_add_numbers _ _ Hs Hc). simpl.
    rewrite !zip_with_fmap_same. reflexivity. }
  split; [exact Heng|]. split; [reflexivity|].
  intros r2 out'. unfold train_model. rewrite Hfile, Heng. simpl.
  destruct (train_test_split X y) as [e|[[[Xtr Xte] ytr] yte]] eqn:Hsplit;
    [discriminate|]. simpl.
  destruct (fit regressor Xtr ytr) as [e|fitted] eqn:Hfit; [discriminate|].
  simpl.
  destruct (r2_score fitted Xte yte) as [e|sc]; [discriminate|]. simpl.
  destruct (is_decision_tree regressor).
  - destruct (export_graphviz fitted feature_names) as [e|dot];
      [discriminate|]. simpl.
    intros [= <- <-]. exists Xtr, Xte, ytr, yte, fitted.
    split; [reflexivity|]. split; [exact Hfit|]. apply lookup_insert_eq.
  - simpl. intros [= <- <-]. exists Xtr, Xte, ytr, yte, fitted.
    split; [reflexivity|]. split; [exact Hfit|]. apply lookup_insert_eq.
Qed.

(** On numbers the derived features are the difference and the sum. *)
Lemma derived_features_numeric (s o c : Q) (st sd l : cell) :
  let r := {| self_score := Num s; opp_score := Num o; opp_stands := st;
              result_card_val := Num c; result_stand := sd; score := l |} in
  score_difference r = Num (s - o) /\ score_if_card_played r = Num (s + c).
Proof. split; reflexivity. Qed.

(** ** The claims about a whole run *)

Section RunClaims.

Context {E : Type} `{!Outside E}.

Implicit Types (w : World E) (sf : option (Strategy E)) (t : Tally).

(** C8, as the code has it.  For a run that starts on the empty dataset
    the module is loaded with, once the loop over the sets has returned
    (every set has reached its outcome), no row of the dataset is left
    with a missing score, the number of rows is the sum over the sets of
    the decisions recorded in each, and this is what the file holds. *)
Theorem create_dataset_rows (n : Z) sf w t w1 :
  dataset w = initial_dataset ->
  play_sets sf (Z.to_nat n) no_sets (started w) = Returns t w1 ->
  Forall (fun r => unresolved r = false)
    (dataset (final_state (create_dataset n sf w))) /\
  length (dataset (final_state (create_dataset n sf w))) =
    sum_list (decisions_per_set sf (Z.to_nat n) no_sets (started w)) /\
  files (final_state (create_dataset n sf w)) !! DATASET_FILE_NAME =
    Some (to_csv (dataset (final_state (create_dataset n sf w)))).
Proof.
  intros Hinit Hloop.
  destruct (create_dataset_after_loop n sf w t w1 Hloop) as [-> ->].
  destruct (play_sets_returns _ _ _ _ _ _ Hloop) as (Hlen & Hall & _ & _).
  change (dataset (started w)) with (dataset w) in Hlen, Hall.
  rewrite Hinit in Hlen, Hall.
  split; [|split].
  - eapply Forall_impl; [apply Hall; left; constructor|].
    intros r. apply complete_resolved.
  - exact Hlen.
  - apply lookup_insert_eq.
Qed.

(** C9, as the code has it.  The dataset is a global of the module: it
    is empty when the module is loaded and no run empties it.  Once the
    loop of a run has returned, the file holds the whole dataset: the
    rows that were there when the run started, in their places and with
    the features they had, followed by one row for each decision
    recorded during this run; for a run that starts on the empty dataset
    these are all the rows. *)
Theorem create_dataset_accumulates (n : Z) sf w t w1 :
  play_sets sf (Z.to_nat n) no_sets (started w) = Returns t w1 ->
  files (final_state (create_dataset n sf w)) !! DATASET_FILE_NAME =
    Some (to_csv (dataset (final_state (create_dataset n sf w)))) /\
  length (dataset (final_state (create_dataset n sf w))) =
    (length (dataset w) +
     sum_list (decisions_per_set sf (Z.to_nat n) no_sets (started w)))%nat /\
  (forall i r, dataset w !! i = Some r ->
     exists r', dataset (final_state (create_dataset n sf w)) !! i = Some r' /\
                kept r r') /\
  (dataset w = initial_dataset ->
   length (dataset (final_state (create_dataset n sf w))) =
     sum_list (decisions_per_set sf (Z.to_nat n) no_sets (started w))).
Proof.
  intros Hloop.
  destruct (create_dataset_after_loop n sf w t w1 Hloop) as [-> ->].
  destruct (play_sets_returns _ _ _ _ _ _ Hloop) as (Hlen & _ & Hrows & _).
  change (dataset (started w)) with (dataset w) in Hlen, Hrows.
  split; [apply lookup_insert_eq|]. split; [exact Hlen|].
  split; [exact Hrows|].
  intros Hinit. rewrite Hlen, Hinit. reflexivity.
Qed.

End RunClaims.

(** ** The code on the small world *)

Import Scenario.

(** The module is loaded with an empty dataset. *)
Lemma initial_dataset_empty : initial_dataset = [].
Proof. reflexivity. Qed.

Example py_getitem_last : py_getitem hand (-1) = Some 4.
Proof. reflexivity. Qed.

Example py_getitem_first_from_end : py_getitem hand (-4) = Some 1.
Proof. reflexivity. Qed.

Example py_getitem_out_of_range :
  py_getitem hand 4 = None /\ py_getitem hand (-5) = None.
Proof. split; reflexivity. Qed.

Example py_int_truncates : py_int (7 # 2) = 3 /\ py_int (-7 # 2) = -3.
Proof. split; reflexivity. Qed.

(** Two decisions in a set that the trainee wins: 0.3 for the first, 1
    for the last. *)
Example resolve_two_rows_won :
  exists t' w',
    resolve (Some MLTrainee) no_sets
      {| dataset := [recorded_row 10 5 false 2 false;
                     recorded_row 12 5 false 0 true];
         files := ∅; ext := O |} = Returns t' w' /\
    score <$> dataset w' = [Num (3 # 10); Num 1] /\
    sets_won t' = 1.
Proof. eexists _, _. repeat split; vm_compute; reflexivity. Qed.

(** One decision in a set: the row carries the full score, 1 for a win,
    -1 for a loss, 0 for a draw. *)
Example resolve_single_row :
  forall winner : option Player,
  exists t' w',
    resolve winner no_sets
      {| dataset := [recorded_row 18 17 true 0 true];
         files := ∅; ext := O |} = Returns t' w' /\
    score <$> dataset w' = [Num (last_score winner)].
Proof.
  intros [pl|]; [|eexists _, _; split; reflexivity].
  unfold resolve, last_score.
  destruct (String.eqb (name pl) "MLTrainee");
    eexists _, _; split; reflexivity.
Qed.

(** C4.  A run of 0 sets that takes less than a second writes a file
    with the header and no row, and then raises the division error of
    line 82. *)
Theorem create_dataset_zero_sets_raises :
  exists w',
    create_dataset 0 None fresh = Raises ZeroDivisionError w' /\
    files w' !! DATASET_FILE_NAME =
      Some {| header :=
                ["self_score"; "opp_score"; "opp_stands";
                 "result_card_val"; "result_stand"; "score"];
              records := [] |}.
Proof. eexists. split; vm_compute; reflexivity. Qed.

(** The failing strategy aborts the run and leaves an unresolved row in
    the dataset. *)
Lemma aborted_run :
  create_dataset 1 (Some fragile) fresh =
    Raises (OtherError "strategy failed") aborted /\
  dataset aborted = [recorded_row 12 9 false 0 false].
Proof. split; vm_compute; reflexivity. Qed.

(** C3, counterexample.  After the aborted run the next set is played:
    it appends two rows and the trainee wins it.  The resolution of that
    set gives score 0.3 to row 0, which was in the dataset before the
    set began. *)
Lemma resolve_reaches_older_rows :
  exists w1 t' w2 r r',
    length (dataset aborted) = 1%nat /\
    run_set None (set_number 0) aborted = Returns (Some MLTrainee) w1 /\
    decisions None (set_number 0) aborted = 2%nat /\
    resolve (Some MLTrainee) no_sets w1 = Returns t' w2 /\
    dataset aborted !! 0%nat = Some r /\
    dataset w2 !! 0%nat = Some r' /\
    score r = NaN /\
    score r' = Num (3 # 10).
Proof.
  eexists _, _, _, _, _.
  repeat split; try (vm_compute; reflexivity).
Qed.

(** A set without any decision of the trainee that the opponent wins:
    [iloc[-1, 5]] lands on the last row of the set before. *)
Lemma resolve_after_silent_set :
  exists w1 t' w2,
    run_set None (silent (Some Opponent)) after_one_run =
      Returns (Some Opponent) w1 /\
    resolve (Some Opponent) no_sets w1 = Returns t' w2 /\
    score <$> dataset after_one_run = [Num (3 # 10); Num 1] /\
    score <$> dataset w2 = [Num (3 # 10); Num (-1)].
Proof.
  eexists _, _, _.
  repeat split; try (vm_compute; reflexivity).
Qed.

(** On the empty dataset such a set makes the resolution raise. *)
Lemma resolve_silent_set_raises :
  exists w', resolve (Some Opponent) no_sets fresh = Raises IndexError w'.
Proof. eexists. vm_compute. reflexivity. Qed.

(** C9, counterexample.  A second run in the same process starts on the
    two rows of the first run, records one decision, and writes a file of
    three rows. *)
Lemma second_run_persists_first_rows :
  exists rep w2,
    create_dataset 1 None after_one_run = Returns rep w2 /\
    length (dataset (started after_one_run)) = 2%nat /\
    decisions_per_set None 1 no_sets (started after_one_run) = [1%nat] /\
    (records <$> files w2 !! DATASET_FILE_NAME) =
      Some [set_score (Num (3 # 10)) (recorded_row 12 9 false 0 false);
            set_score (Num 1) (recorded_row 19 9 true 0 true);
            set_score (Num (-1)) (recorded_row 8 10 false 0 false)].
Proof.
  eexists _, _.
  split; [vm_compute; reflexivity|].
  split; [vm_compute; reflexivity|].
  split; vm_compute; reflexivity.
Qed.

(** C8, counterexample.  After that second run of one set the dataset
    has three rows, and one decision was recorded in the run. *)
Lemma second_run_row_count :
  exists rep w2,
    create_dataset 1 None after_one_run = Returns rep w2 /\
    length (dataset w2) = 3%nat /\
    sum_list (decisions_per_set None 1 no_sets (started after_one_run)) =
      1%nat /\
    length (dataset w2) <>
      sum_list (decisions_per_set None 1 no_sets (started after_one_run)).
Proof.
  eexists _, _.
  split; [vm_compute; reflexivity|].
  split; [vm_compute; reflexivity|].
  split; [vm_compute; reflexivity|].
  vm_compute. discriminate.
Qed.

(** C5, counterexample.  On a file of one row the features the regressor
    gets contain the column [self_score], which is not one of the
    columns the specification names. *)
Lemma features_keep_self_score :
  exists X y,
    engineer (read_csv (to_csv one_row)) = inr (X, y) /\
    fst <$> X =
      ["self_score"; "opp_stands"; "result_stand";
       "score_difference"; "score_if_card_played"] /\
    getcol "self_score" X = Some [Num 10] /\
    fst <$> X <> spec_feature_columns /\
    ~ ("self_score" ∈ spec_feature_columns).
Proof.
  eexists _, _. split; [vm_compute; reflexivity|].
  split; [reflexivity|]. split; [reflexivity|].
  split; [discriminate|].
  unfold spec_feature_columns. intros Hin.
  repeat (apply elem_of_cons in Hin; destruct Hin as [Hin|Hin];
          [discriminate|]).
  apply elem_of_nil in Hin. exact Hin.
Qed.

(** ** The theorems at work on the small world *)

Lemma win_scores_witness :
  run_set None (set_number 0) fresh = Returns (Some MLTrainee) won /\
  name MLTrainee = "MLTrainee" /\
  exists new,
    dataset won = dataset fresh ++ new /\
    length new = decisions None (set_number 0) fresh /\
    forall i r, new !! i = Some r ->
      score r = NaN /\
      exists t' w2,
        resolve (Some MLTrainee) no_sets won = Returns t' w2 /\
        dataset w2 !! (length (dataset fresh) + i)%nat =
        Some (set_score
                (Num (if decide (S i = length new) then 1 else 3 # 10)) r).
Proof.
  split; [vm_compute; reflexivity|]. split; [reflexivity|].
  apply (win_scores None (set_number 0) fresh MLTrainee won no_sets);
    vm_compute; reflexivity.
Defined.

Lemma loss_and_draw_scores_witness :
  (run_set None (set_number 1) fresh = Returns (Some Opponent) lost /\
   (forall pl, Some Opponent = Some pl -> name pl <> "MLTrainee") /\
   exists new,
     dataset lost = dataset fresh ++ new /\
     length new = decisions None (set_number 1) fresh /\
     forall i r, new !! i = Some r ->
       score r = NaN /\
       exists t' w2,
         resolve (Some Opponent) no_sets lost = Returns t' w2 /\
         dataset w2 !! (length (dataset fresh) + i)%nat =
         Some (set_score
                 (Num (if decide (S i = length new) then -1 else - 3 # 10))
                 r)) /\
  (run_set None drawn fresh = Returns None tied /\
   exists new,
     dataset tied = dataset fresh ++ new /\
     length new = decisions None drawn fresh /\
     forall i r, new !! i = Some r ->
       score r = NaN /\
       exists t' w2,
         resolve None no_sets tied = Returns t' w2 /\
         dataset w2 !! (length (dataset fresh) + i)%nat =
         Some (set_score (Num 0) r)).
Proof.
  assert (Hopp : forall pl, Some Opponent = Some pl -> name pl <> "MLTrainee").
  { intros pl [= <-]. vm_compute. discriminate. }
  split.
  - split; [vm_compute; reflexivity|]. split; [exact Hopp|].
    apply (loss_and_draw_scores None (set_number 1) fresh (Some Opponent)
             lost no_sets); [vm_compute; reflexivity|exact Hopp].
  - split; [vm_compute; reflexivity|].
    apply (loss_and_draw_scores None drawn fresh None tied no_sets);
      [vm_compute; reflexivity|discriminate].
Defined.

Lemma resolve_frame_witness :
  run_set None (set_number 1) after_one_run =
    Returns (Some Opponent)
      (final_state (run_set None (set_number 1) after_one_run)) /\
  Forall (fun r => complete r = true) (dataset after_one_run) /\
  (0 < decisions None (set_number 1) after_one_run)%nat /\
  exists t' w2,
    resolve (Some Opponent) no_sets
      (final_state (run_set None (set_number 1) after_one_run)) =
      Returns t' w2 /\
    length (dataset w2) =
      length (dataset
                (final_state (run_set None (set_number 1) after_one_run))) /\
    (forall i r, dataset after_one_run !! i = Some r ->
       dataset w2 !! i = Some r) /\
    (forall i r,
       dataset (final_state (run_set None (set_number 1) after_one_run))
         !! i = Some r ->
       exists r', dataset w2 !! i = Some r' /\ features r' = features r) /\
    files w2 =
      files (final_state (run_set None (set_number 1) after_one_run)).
Proof.
  assert (Hall : Forall (fun r => complete r = true) (dataset after_one_run)).
  { vm_compute. repeat constructor. }
  assert (Hpos : (0 < decisions None (set_number 1) after_one_run)%nat).
  { vm_compute. lia. }
  split; [vm_compute; reflexivity|]. split; [exact Hall|].
  split; [exact Hpos|].
  apply (resolve_frame None (set_number 1) after_one_run (Some Opponent)
           (final_state (run_set None (set_number 1) after_one_run)) no_sets);
    [vm_compute; reflexivity|exact Hall|left; exact Hpos].
Defined.

Lemma train_model_features_witness :
  ({[ DATASET_FILE_NAME := to_csv won_rows ]} : gmap string CsvFile)
    !! DATASET_FILE_NAME = Some (to_csv won_rows) /\
  Forall (fun r => numeric r = true) won_rows /\
  engineer (read_csv (to_csv won_rows)) =
    inr ([("self_score", [Num 10; Num 12]);
          ("opp_stands", [Flag false; Flag false]);
          ("result_stand", [Flag false; Flag true]);
          ("score_difference", [Num 5; Num 7]);
          ("score_if_card_played", [Num 12; Num 12])],
         [Num (3 # 10); Num 1]) /\
  exists r2 out',
    train_model [] DATASET_FILE_NAME MODEL_FILE_NAME
      {[ DATASET_FILE_NAME := to_csv won_rows ]}
      {| models := ∅; graphs := ∅ |} = inr (r2, out') /\
    exists X_train X_test y_train y_test fitted,
      train_test_split
        [("self_score", [Num 10; Num 12]);
         ("opp_stands", [Flag false; Flag false]);
         ("result_stand", [Flag false; Flag true]);
         ("score_difference", [Num 5; Num 7]);
         ("score_if_card_played", [Num 12; Num 12])]
        [Num (3 # 10); Num 1] =
        inr (X_train, X_test, y_train, y_test) /\
      fit [] X_train y_train = inr fitted /\
      models out' !! MODEL_FILE_NAME = Some fitted.
Proof.
  assert (Hfile :
    ({[ DATASET_FILE_NAME := to_csv won_rows ]} : gmap string CsvFile)
      !! DATASET_FILE_NAME = Some (to_csv won_rows)).
  { vm_compute. reflexivity. }
  assert (Hnum : Forall (fun r => numeric r = true) won_rows).
  { repeat constructor. }
  split; [exact Hfile|]. split; [exact Hnum|].
  destruct (train_model_features [] DATASET_FILE_NAME MODEL_FILE_NAME
              {[ DATASET_FILE_NAME := to_csv won_rows ]}
              {| models := ∅; graphs := ∅ |} won_rows Hfile Hnum)
    as (Heng & _ & Hfit).
  split; [exact Heng|].
  destruct (train_model [] DATASET_FILE_NAME MODEL_FILE_NAME
              {[ DATASET_FILE_NAME := to_csv won_rows ]}
              {| models := ∅; graphs := ∅ |}) as [e|[r2 out']] eqn:Htrain.
  { vm_compute in Htrain. discriminate Htrain. }
  exists r2, out'. split; [reflexivity|].
  exact (Hfit r2 out' eq_refl).
Defined.

Lemma record_results_appends_one_witness :
  select_strategy (Some play_last) (ext fresh) = (play_last, O) /\
  play_last hand 12 9 false O = Returns (true, -1, false) O /\
  py_getitem hand (-1) = Some 4 /\
  exists w',
    record_results hand 12 9 false (Some play_last) fresh =
      Returns (true, -1, false) w' /\
    dataset w' =
      dataset fresh ++
      [ {| self_score := Num 12; opp_score := Num 9;
           opp_stands := Flag false; result_card_val := Num 4;
           result_stand := Flag false; score := NaN |} ] /\
    files w' = files fresh /\
    ext w' = O.
Proof.
  split; [reflexivity|]. split; [reflexivity|]. split; [reflexivity|].
  apply (record_results_appends_one hand 12 9 false (Some play_last) fresh
           play_last O O true false (-1) 4);
    [reflexivity|reflexivity|intros _; reflexivity|discriminate].
Defined.

Lemma record_results_strategy_raises_witness :
  select_strategy (Some fragile) (ext fresh) = (fragile, O) /\
  fragile hand 19 9 true O = Raises (OtherError "strategy failed") O /\
  exists w',
    record_results hand 19 9 true (Some fragile) fresh =
      Raises (OtherError "strategy failed") w' /\
    dataset w' = dataset fresh /\
    files w' = files fresh.
Proof.
  split; [reflexivity|]. split; [reflexivity|].
  apply (record_results_strategy_raises hand 19 9 true (Some fragile) fresh
           fragile O O (OtherError "strategy failed")); reflexivity.
Defined.

Lemma create_dataset_rows_witness :
  dataset fresh = initial_dataset /\
  play_sets None (Z.to_nat 1) no_sets (started fresh) =
    Returns {| sets_won := 1; draws := 0; sets_lost := 0 |}
      (final_state (play_sets None (Z.to_nat 1) no_sets (started fresh))) /\
  Forall (fun r => unresolved r = false)
    (dataset (final_state (create_dataset 1 None fresh))) /\
  length (dataset (final_state (create_dataset 1 None fresh))) =
    sum_list (decisions_per_set None (Z.to_nat 1) no_sets (started fresh)) /\
  files (final_state (create_dataset 1 None fresh)) !! DATASET_FILE_NAME =
    Some (to_csv (dataset (final_state (create_dataset 1 None fresh)))).
Proof.
  split; [reflexivity|]. split; [vm_compute; reflexivity|].
  apply (create_dataset_rows 1 None fresh
           {| sets_won := 1; draws := 0; sets_lost := 0 |}
           (final_state (play_sets None (Z.to_nat 1) no_sets (started fresh))));
    [reflexivity|vm_compute; reflexivity].
Defined.

Lemma create_dataset_accumulates_witness :
  play_sets None (Z.to_nat 1) no_sets (started after_one_run) =
    Returns {| sets_won := 0; draws := 0; sets_lost := 1 |}
      (final_state
         (play_sets None (Z.to_nat 1) no_sets (started after_one_run))) /\
  files (final_state (create_dataset 1 None after_one_run))
    !! DATASET_FILE_NAME =
    Some (to_csv (dataset (final_state (create_dataset 1 None after_one_run))))
  /\
  length (dataset (final_state (create_dataset 1 None after_one_run))) =
    (length (dataset after_one_run) +
     sum_list
       (decisions_per_set None (Z.to_nat 1) no_sets
          (started after_one_run)))%nat
  /\
  (forall i r, dataset after_one_run !! i = Some r ->
     exists r',
       dataset (final_state (create_dataset 1 None after_one_run)) !! i =
         Some r' /\
       kept r r') /\
  (dataset after_one_run = initial_dataset ->
   length (dataset (final_state (create_dataset 1 None after_one_run))) =
     sum_list
       (decisions_per_set None (Z.to_nat 1) no_sets (started after_one_run))).
Proof.
  split; [vm_compute; reflexivity|].
  apply (create_dataset_accumulates 1 None after_one_run
           {| sets_won := 0; draws := 0; sets_lost := 1 |}
           (final_state
              (play_sets None (Z.to_nat 1) no_sets (started after_one_run))));
    vm_compute; reflexivity.
Defined.

(** * More of the module *)

(** ** Indexing and the recorder *)

Lemma py_getitem_None {A : Type} (l : list A) (i : Z) :
  py_getitem l i = None <->
  i < - Z.of_nat (length l) \/ Z.of_nat (length l) <= i.
Proof.
  unfold py_getitem.
  destruct (Z.leb_spec 0 i) as [Hpos|Hneg].
  - rewrite lookup_ge_None. lia.
  - destruct (Z.leb_spec (- Z.of_nat (length l)) i) as [Hin|Hout].
    + rewrite lookup_ge_None. lia.
    + split; [intros _; lia|reflexivity].
Qed.

Lemma py_getitem_is_Some {A : Type} (l : list A) (i : Z) :
  is_Some (py_getitem l i) <->
  - Z.of_nat (length l) <= i < Z.of_nat (length l).
Proof.
  rewrite <- not_eq_None_Some, py_getitem_None. lia.
Qed.

Lemma typed_recorded_row (s o : Z) (st : bool) (v : Z) (sd : bool) :
  recorded (recorded_row s o st v sd) = true.
Proof. reflexivity. Qed.

Section RecorderEdges.

Context {E : Type} `{!Outside E}.

Implicit Types (w : World E) (sf : option (Strategy E)) (h : list Z).

(** X1. When the strategy decides to play a card, the call returns
    exactly when the index is one Python accepts for the hand,
    [-len <= i < len], and then it has added one row; for any other
    index it raises [IndexError] and leaves the dataset and the files as
    they were. *)
Theorem record_results_card_index h (s o : Z) (st : bool) sf w
    (f : Strategy E) (e1 e2 : E) (stand : bool) (card_index : Z) :
  select_strategy sf (ext w) = (f, e1) ->
  f h s o st e1 = Returns (true, card_index, stand) e2 ->
  (- Z.of_nat (length h) <= card_index < Z.of_nat (length h) ->
   exists w',
     record_results h s o st sf w = Returns (true, card_index, stand) w' /\
     length (dataset w') = S (length (dataset w))) /\
  (card_index < - Z.of_nat (length h) \/ Z.of_nat (length h) <= card_index ->
   exists w',
     record_results h s o st sf w = Raises IndexError w' /\
     dataset w' = dataset w /\ files w' = files w).
Proof.
  intros Hsel Hf. unfold record_results. rewrite Hsel, Hf. split.
  - intros Hin. apply py_getitem_is_Some in Hin. destruct Hin as [v ->].
    eexists. split; [reflexivity|]. simpl. unfold append.
    rewrite length_app. simpl. lia.
  - intros Hout. apply py_getitem_None in Hout. rewrite Hout.
    eexists. split; [reflexivity|]. simpl. auto.
Qed.

(** In every outcome a call adds at most one row, a recorded one, behind
    the rows that were there. *)
Lemma record_results_outcome h (s o : Z) (st : bool) sf w :
  exists new,
    dataset (final_state (record_results h s o st sf w)) = dataset w ++ new /\
    (length new <= 1)%nat /\
    Forall (fun r => recorded r = true) new /\
    files (final_state (record_results h s o st sf w)) = files w.
Proof.
  unfold record_results.
  destruct (select_strategy sf (ext w)) as [f e1].
  destruct (f h s o st e1) as [[[pc ci] sd] e2|x e2].
  - destruct (if pc then py_getitem h ci else Some 0) as [v|].
    + eexists [_]. simpl. unfold append. split; [reflexivity|].
      split; [lia|]. split; [|reflexivity].
      constructor; [apply typed_recorded_row|constructor].
    + exists []. simpl. rewrite app_nil_r. auto.
  - exists []. simpl. rewrite app_nil_r. auto.
Qed.

(** X2. Whatever the outcome of a call (a decision, an exception of the
    strategy, a bad index), the rows that were in the dataset are still
    there, unchanged and in place; at most one row is added behind
    them, and its score is missing; no file is touched. *)
Theorem record_results_append_only h (s o : Z) (st : bool) sf w :
  exists new,
    dataset (final_state (record_results h s o st sf w)) = dataset w ++ new /\
    (length new <= 1)%nat /\
    Forall (fun r => unresolved r = true) new /\
    files (final_state (record_results h s o st sf w)) = files w.
Proof.
  destruct (record_results_outcome h s o st sf w)
    as (new & Hds & Hlen & Hnew & Hfs).
  exists new. split; [exact Hds|]. split; [exact Hlen|].
  split; [|exact Hfs].
  eapply Forall_impl; [exact Hnew|]. intros r Hr.
  unfold recorded in Hr. apply andb_true_iff in Hr. apply Hr.
Qed.

(** However a set ends, the frame has grown by recorded rows only. *)
Lemma run_set_recorded sf (p : Play E) w :
  exists new,
    dataset (final_state (run_set sf p w)) = dataset w ++ new /\
    Forall (fun r => recorded r = true) new /\
    length new = decisions sf p w /\
    files (final_state (run_set sf p w)) = files w.
Proof.
  revert w. induction p as [winner|e|next k IH|h s o st k IH]; intros w.
  - exists []. simpl. rewrite app_nil_r. auto.
  - exists []. simpl. rewrite app_nil_r. auto.
  - simpl. apply (IH (ext w) (with_ext (next (ext w)) w)).
  - simpl.
    destruct (record_results_outcome h s o st sf w)
      as (one & Hds & Hlen & Hone & Hfs).
    destruct (record_results h s o st sf w) as [d w'|x w'] eqn:Hrec.
    + assert (Hgrow : length (dataset w') = S (length (dataset w))).
      { pose proof (record_results_final h s o st sf w) as Hfin.
        rewrite Hrec in Hfin. destruct Hfin as (r & -> & _).
        rewrite length_app. simpl. lia. }
      simpl in Hds, Hfs.
      destruct (IH d w') as (new & Hds' & Hnew & Hlen' & Hfs').
      exists (one ++ new). rewrite Hds', Hds, <- app_assoc.
      split; [reflexivity|]. split; [apply Forall_app; auto|].
      rewrite Hds, length_app in Hgrow.
      split; [rewrite length_app; lia|congruence].
    + pose proof (record_results_final h s o st sf w) as Hfin.
      rewrite Hrec in Hfin. destruct Hfin as [Hsame Hfs'].
      exists []. simpl. rewrite app_nil_r. auto.
Qed.

(** X3. An exception in the middle of a set (from the strategy, from a
    bad index, from the engine) is not caught and nothing is taken
    back: the rows recorded in that set before the exception stay in
    the dataset, unresolved, one for each decision recorded. *)
Theorem run_set_keeps_rows_on_exception sf (p : Play E) w (e : exn) w' :
  run_set sf p w = Raises e w' ->
  exists new,
    dataset w' = dataset w ++ new /\
    length new = decisions sf p w /\
    Forall (fun r => recorded r = true /\ unresolved r = true) new /\
    files w' = files w.
Proof.
  intros Hrun.
  destruct (run_set_recorded sf p w) as (new & Hds & Hnew & Hlen & Hfs).
  rewrite Hrun in Hds, Hfs. simpl in Hds, Hfs.
  exists new. split; [exact Hds|]. split; [exact Hlen|].
  split; [|exact Hfs].
  eapply Forall_impl; [exact Hnew|]. intros r Hr. split; [exact Hr|].
  unfold recorded in Hr. apply andb_true_iff in Hr. apply Hr.
Qed.

End RecorderEdges.

(** ** The resolution at its edges *)

Lemma rows_kept_refl (df : DataFrame) : rows_kept df df.
Proof. intros i r Hi. exists r. split; [exact Hi|apply kept_refl]. Qed.

Lemma rows_kept_trans (df1 df2 df3 : DataFrame) :
  rows_kept df1 df2 -> rows_kept df2 df3 -> rows_kept df1 df3.
Proof.
  intros H12 H23 i r Hi. destruct (H12 i r Hi) as (r2 & Hi2 & Hk2).
  destruct (H23 i r2 Hi2) as (r3 & Hi3 & Hk3).
  exists r3. split; [exact Hi3|]. eapply kept_trans; eassumption.
Qed.

Lemma rows_kept_app (df new : DataFrame) : rows_kept df (df ++ new).
Proof.
  intros i r Hi. exists r. split; [|apply kept_refl].
  apply lookup_app_l_Some. exact Hi.
Qed.

Lemma rows_kept_fillna (v : Q) (df : DataFrame) : rows_kept df (fillna v df).
Proof.
  intros i r Hi. exists (fillna_row v r). split; [|apply kept_fillna_row].
  unfold fillna. rewrite list_lookup_fmap, Hi. reflexivity.
Qed.

Lemma rows_kept_length (df df' : DataFrame) :
  rows_kept df df' -> (length df <= length df')%nat.
Proof.
  intros Hk. destruct (snoc_cases df) as [->|(init & l & ->)]; [simpl; lia|].
  destruct (Hk (length init) l) as (r' & Hr' & _).
  { apply list_lookup_middle. reflexivity. }
  apply lookup_lt_Some in Hr'. rewrite length_app. simpl. lia.
Qed.

Lemma iloc_set_last_score_inl (x : Q) (df : DataFrame) (e : exn) :
  iloc_set_last_score x df = inl e <-> df = [] /\ e = IndexError.
Proof.
  unfold iloc_set_last_score. destruct (last df) as [l|] eqn:Hl.
  - split; [discriminate|]. intros [-> _]. discriminate.
  - apply last_None in Hl. subst df. split.
    + intros [= <-]. auto.
    + intros [_ ->]. reflexivity.
Qed.

Section ResolveEdges.

Context {E : Type} `{!Outside E}.

Implicit Types (w : World E) (sf : option (Strategy E)) (t : Tally).

(** When the resolution raises. *)
Lemma resolve_raises (winner : option Player) t w (e : exn) w' :
  resolve winner t w = Raises e w' <->
  winner <> None /\ dataset w = [] /\ e = IndexError /\ w' = w.
Proof.
  unfold resolve. destruct winner as [pl|].
  - assert (Hcase : forall (v x : Q) (tt : Tally),
      match iloc_set_last_score x (fillna v (dataset w)) with
      | inl e0 => Raises e0 (with_dataset (fillna v (dataset w)) w)
      | inr df' => Returns tt (with_dataset df' w)
      end = (Raises e w' : outcome (World E) Tally) <->
      Some pl <> None /\ dataset w = [] /\ e = IndexError /\ w' = w).
    { intros v x tt.
      destruct (iloc_set_last_score x (fillna v (dataset w)))
        as [e0|df'] eqn:Hset.
      - apply iloc_set_last_score_inl in Hset. destruct Hset as [Hnil ->].
        apply fmap_nil_inv in Hnil. split.
        + intros [= <- <-]. rewrite Hnil. simpl.
          destruct w as [ds fs ex]. simpl in *. subst ds. auto.
        + intros (_ & _ & -> & ->). rewrite Hnil. simpl.
          destruct w as [ds fs ex]. simpl in *. subst ds. reflexivity.
      - split; [discriminate|]. intros (_ & Hnil & _ & _).
        rewrite Hnil in Hset. discriminate. }
    destruct (String.eqb (name pl) "MLTrainee"); apply Hcase.
  - split; [discriminate|]. intros [Hne _]. congruence.
Qed.

(** X4. The resolution raises exactly when the set has a winner and the
    dataset has no row at all: the exception is [IndexError], from
    [iloc[-1, 5]], and the state is as it was.  A draw is resolved on
    any dataset. *)
Theorem resolve_raises_iff (winner : option Player) t w (e : exn) w' :
  resolve winner t w = Raises e w' <->
  winner <> None /\ dataset w = [] /\ e = IndexError /\ w' = w.
Proof. apply resolve_raises. Qed.

(** In every outcome the resolution keeps the files and, row by row,
    the features that were present. *)
Lemma resolve_outcome (winner : option Player) t w :
  files (final_state (resolve winner t w)) = files w /\
  rows_kept (dataset w) (dataset (final_state (resolve winner t w))).
Proof.
  destruct (resolve winner t w) as [t' w'|e w'] eqn:Hres.
  - destruct (resolve_returns _ _ _ _ _ Hres) as (_ & _ & Hrows & Hfs).
    simpl. split; [exact Hfs|exact Hrows].
  - apply resolve_raises in Hres. destruct Hres as (_ & _ & _ & ->).
    simpl. split; [reflexivity|apply rows_kept_refl].
Qed.

(** X5. A set in which no decision was recorded and that has a winner:
    on a dataset without missing values the resolution changes one cell,
    the score of the last row, which becomes 1 when the trainee is the
    winner and -1 otherwise; that row is from an earlier set. *)
Theorem resolve_without_decisions sf (p : Play E) w (pl : Player) w1 t
    (init : DataFrame) (l : Row) :
  run_set sf p w = Returns (Some pl) w1 ->
  decisions sf p w = 0%nat ->
  dataset w = init ++ [l] ->
  Forall (fun r => complete r = true) (dataset w) ->
  exists t' w2,
    resolve (Some pl) t w1 = Returns t' w2 /\
    dataset w2 =
      init ++
      [set_score
         (Num (if String.eqb (name pl) "MLTrainee" then 1 else -1)) l].
Proof.
  intros Hrun Hnone Hds Hall.
  destruct (run_set_returns sf p w _ w1 Hrun) as (new & Hds1 & _ & Hlen & _).
  rewrite Hnone in Hlen. apply nil_length_inv in Hlen. subst new.
  rewrite app_nil_r in Hds1. unfold resolve. rewrite Hds1.
  destruct (String.eqb (name pl) "MLTrainee");
    rewrite fillna_complete by exact Hall;
    rewrite Hds, iloc_set_last_score_snoc;
    eexists _, _; split; reflexivity.
Qed.

(** The resolution that returns moves exactly one counter, by one. *)
Lemma resolve_tally (winner : option Player) t w t' w' :
  resolve winner t w = Returns t' w' ->
  sets_won t <= sets_won t' /\ draws t <= draws t' /\
  sets_lost t <= sets_lost t' /\
  sets_won t' + draws t' + sets_lost t' =
    sets_won t + draws t + sets_lost t + 1.
Proof.
  unfold resolve. destruct winner as [pl|].
  - destruct (String.eqb (name pl) "MLTrainee").
    + destruct (iloc_set_last_score 1 _); [discriminate|].
      intros [= <- _]. simpl. lia.
    + destruct (iloc_set_last_score (-1) _); [discriminate|].
      intros [= <- _]. simpl. lia.
  - intros [= <- _]. simpl. lia.
Qed.

End ResolveEdges.

(** ** A whole run at its edges *)

Lemma scored_complete (r : Row) : scored r = true -> complete r = true.
Proof. unfold scored. intros H. apply andb_true_iff in H. apply H. Qed.

Lemma pending_set_score (x : Q) (r : Row) :
  pending r = true -> complete (set_score (Num x) r) = true.
Proof.
  destruct r as [a b c d e f]. unfold pending, has_features, complete.
  simpl. rewrite !andb_true_iff. tauto.
Qed.

Lemma scored_set_score (x : Q) (r : Row) :
  reward (Num x) = true ->
  scored r = true \/ pending r = true ->
  scored (set_score (Num x) r) = true.
Proof.
  intros Hx Hr. unfold scored. apply andb_true_iff. split; [|exact Hx].
  destruct Hr as [Hr|Hr].
  - apply complete_set_score, scored_complete, Hr.
  - apply pending_set_score, Hr.
Qed.

(** [fillna] with one of the scores turns pending rows into scored ones
    and leaves scored ones alone. *)
Lemma fillna_scored (v : Q) (df : DataFrame) :
  reward (Num v) = true ->
  Forall (fun r => scored r = true \/ pending r = true) df ->
  Forall (fun r => scored r = true) (fillna v df).
Proof.
  intros Hv Hall. unfold fillna. apply Forall_fmap.
  eapply Forall_impl; [exact Hall|]. intros r [Hr|Hr]; simpl.
  - rewrite fillna_row_complete by (apply scored_complete; exact Hr).
    exact Hr.
  - rewrite fillna_row_pending by exact Hr.
    apply scored_set_score; auto.
Qed.

Lemma iloc_set_last_score_scored (x : Q) (df df' : DataFrame) :
  reward (Num x) = true ->
  Forall (fun r => scored r = true) df ->
  iloc_set_last_score x df = inr df' ->
  Forall (fun r => scored r = true) df'.
Proof.
  intros Hx Hall. unfold iloc_set_last_score.
  destruct (last df) as [l|] eqn:Hl; [|discriminate].
  intros [= <-]. apply Forall_insert; [exact Hall|].
  apply scored_set_score; [exact Hx|left].
  apply last_Some_elem_of in Hl. rewrite Forall_forall in Hall.
  apply Hall, Hl.
Qed.

(** The two scores and the card value stay numbers under [fillna] and
    under a change of the score. *)
Lemma numeric_fillna_row (v : Q) (r : Row) :
  numeric r = true -> numeric (fillna_row v r) = true.
Proof.
  destruct r as [a b c d e f]. unfold numeric. simpl.
  destruct a, b, d; simpl; intros H; try discriminate H; reflexivity.
Qed.

Lemma numeric_recorded (r : Row) : recorded r = true -> numeric r = true.
Proof.
  destruct r as [a b c d e f]. unfold recorded, typed, numeric. simpl.
  destruct a, b, c, d; simpl; intros H; try discriminate H; reflexivity.
Qed.

Lemma iloc_set_last_score_numeric (x : Q) (df df' : DataFrame) :
  Forall (fun r => numeric r = true) df ->
  iloc_set_last_score x df = inr df' ->
  Forall (fun r => numeric r = true) df'.
Proof.
  intros Hall. unfold iloc_set_last_score.
  destruct (last df) as [l|] eqn:Hl; [|discriminate].
  intros [= <-]. apply Forall_insert; [exact Hall|].
  apply last_Some_elem_of in Hl. rewrite Forall_forall in Hall.
  exact (Hall l Hl).
Qed.

Section RunEdges.

Context {E : Type} `{!Outside E}.

Implicit Types (w : World E) (sf : option (Strategy E)) (t : Tally).

Lemma seated_state w :
  dataset (snd (seated w)) = dataset w /\ files (snd (seated w)) = files w.
Proof. unfold seated. destruct (random_sample (ext w)). simpl. auto. Qed.

(** One turn of the loop, in every outcome. *)
Lemma play_one_set_outcome sf t w :
  files (final_state (play_one_set sf t w)) = files w /\
  rows_kept (dataset w) (dataset (final_state (play_one_set sf t w))).
Proof.
  unfold play_one_set. destruct (seated_state w) as [Hds0 Hfs0].
  destruct (seated w) as [p w0]. simpl in Hds0, Hfs0.
  destruct (run_set_final sf p w0) as (new & Hds & _ & _ & Hfs).
  destruct (run_set sf p w0) as [winner w1|e w1]; simpl in Hds, Hfs.
  - destruct (resolve_outcome winner t w1) as [Hfs2 Hrows].
    assert (Hkept : rows_kept (dataset w)
                      (dataset (final_state (resolve winner t w1)))).
    { eapply rows_kept_trans; [|exact Hrows].
      rewrite Hds, Hds0. apply rows_kept_app. }
    destruct (resolve winner t w1) as [t' w2|e w2]; simpl in *;
      (split; [congruence|exact Hkept]).
  - simpl. split; [congruence|]. rewrite Hds, Hds0. apply rows_kept_app.
Qed.

(** The loop, in every outcome: it writes no file and it keeps, row by
    row, what the dataset had. *)
Lemma play_sets_outcome sf (n : nat) t w :
  files (final_state (play_sets sf n t w)) = files w /\
  rows_kept (dataset w) (dataset (final_state (play_sets sf n t w))).
Proof.
  revert t w. induction n as [|n IH]; intros t w; simpl.
  - split; [reflexivity|apply rows_kept_refl].
  - destruct (play_one_set_outcome sf t w) as [Hfs1 Hrows1].
    destruct (play_one_set sf t w) as [t1 w1|e w1]; simpl in *.
    + destruct (IH t1 w1) as [Hfs Hrows].
      split; [congruence|]. eapply rows_kept_trans; eassumption.
    + auto.
Qed.

(** The counters of the loop: none goes down, and together they count
    the sets. *)
Lemma play_sets_tally sf (n : nat) t w t' w' :
  play_sets sf n t w = Returns t' w' ->
  sets_won t <= sets_won t' /\ draws t <= draws t' /\
  sets_lost t <= sets_lost t' /\
  sets_won t' + draws t' + sets_lost t' =
    sets_won t + draws t + sets_lost t + Z.of_nat n.
Proof.
  revert t w. induction n as [|n IH]; intros t w; simpl.
  - intros [= <- _]. lia.
  - unfold play_one_set. destruct (seated w) as [p w0].
    destruct (run_set sf p w0) as [winner w1|e w1]; [|discriminate].
    destruct (resolve winner t w1) as [t1 w2|e w2] eqn:Hres; [|discriminate].
    intros Hrest. apply resolve_tally in Hres. apply IH in Hrest. lia.
Qed.

(** The resolution leaves only scored rows when it had scored and
    pending rows to work on. *)
Lemma resolve_scored (winner : option Player) t w t' w' :
  Forall (fun r => scored r = true \/ pending r = true) (dataset w) ->
  resolve winner t w = Returns t' w' ->
  Forall (fun r => scored r = true) (dataset w').
Proof.
  intros Hall. unfold resolve. destruct winner as [pl|].
  - destruct (String.eqb (name pl) "MLTrainee").
    + destruct (iloc_set_last_score 1 _) as [e|df'] eqn:Hset; [discriminate|].
      intros [= _ <-]. simpl.
      eapply iloc_set_last_score_scored; [| |exact Hset];
        [reflexivity|]. apply fillna_scored; [reflexivity|exact Hall].
    + destruct (iloc_set_last_score (-1) _) as [e|df'] eqn:Hset;
        [discriminate|].
      intros [= _ <-]. simpl.
      eapply iloc_set_last_score_scored; [| |exact Hset];
        [reflexivity|]. apply fillna_scored; [reflexivity|exact Hall].
  - intros [= _ <-]. simpl. apply fillna_scored; [reflexivity|exact Hall].
Qed.

Lemma play_sets_scored sf (n : nat) t w t' w' :
  Forall (fun r => scored r = true) (dataset w) ->
  play_sets sf n t w = Returns t' w' ->
  Forall (fun r => scored r = true) (dataset w').
Proof.
  revert t w. induction n as [|n IH]; intros t w Hall; simpl.
  - intros [= _ <-]. exact Hall.
  - unfold play_one_set. destruct (seated_state w) as [Hds0 _].
    destruct (seated w) as [p w0]. simpl in Hds0.
    destruct (run_set_final sf p w0) as (new & Hds & Hnew & _ & _).
    destruct (run_set sf p w0) as [winner w1|e w1]; [|discriminate].
    simpl in Hds.
    destruct (resolve winner t w1) as [t1 w2|e w2] eqn:Hres; [|discriminate].
    intros Hrest. eapply IH; [|exact Hrest]. simpl.
    eapply resolve_scored; [|exact Hres].
    rewrite Hds, Hds0. apply Forall_app. split.
    + eapply Forall_impl; [exact Hall|]. intros r Hr. left. exact Hr.
    + eapply Forall_impl; [exact Hnew|]. intros r Hr. right. exact Hr.
Qed.

Lemma resolve_numeric (winner : option Player) t w t' w' :
  Forall (fun r => numeric r = true) (dataset w) ->
  resolve winner t w = Returns t' w' ->
  Forall (fun r => numeric r = true) (dataset w').
Proof.
  intros Hall.
  assert (Hfill : forall v,
            Forall (fun r => numeric r = true) (fillna v (dataset w))).
  { intros v. unfold fillna. apply Forall_fmap.
    eapply Forall_impl; [exact Hall|]. intros r Hr. simpl.
    apply numeric_fillna_row, Hr. }
  unfold resolve. destruct winner as [pl|].
  - destruct (String.eqb (name pl) "MLTrainee").
    + destruct (iloc_set_last_score 1 _) as [e|df'] eqn:Hset; [discriminate|].
      intros [= _ <-]. simpl.
      eapply iloc_set_last_score_numeric; [|exact Hset]. apply Hfill.
    + destruct (iloc_set_last_score (-1) _) as [e|df'] eqn:Hset;
        [discriminate|].
      intros [= _ <-]. simpl.
      eapply iloc_set_last_score_numeric; [|exact Hset]. apply Hfill.
  - intros [= _ <-]. simpl. apply Hfill.
Qed.

(** The loop keeps the scores and the card values numbers. *)
Lemma play_sets_numeric sf (n : nat) t w t' w' :
  Forall (fun r => numeric r = true) (dataset w) ->
  play_sets sf n t w = Returns t' w' ->
  Forall (fun r => numeric r = true) (dataset w').
Proof.
  revert t w. induction n as [|n IH]; intros t w Hall; simpl.
  - intros [= _ <-]. exact Hall.
  - unfold play_one_set. destruct (seated_state w) as [Hds0 _].
    destruct (seated w) as [p w0]. simpl in Hds0.
    destruct (run_set_recorded sf p w0) as (new & Hds & Hnew & _ & _).
    destruct (run_set sf p w0) as [winner w1|e w1]; [|discriminate].
    simpl in Hds.
    destruct (resolve winner t w1) as [t1 w2|e w2] eqn:Hres; [|discriminate].
    intros Hrest. eapply IH; [|exact Hrest]. simpl.
    eapply resolve_numeric; [|exact Hres].
    rewrite Hds, Hds0. apply Forall_app. split; [exact Hall|].
    eapply Forall_impl; [exact Hnew|]. intros r Hr.
    apply numeric_recorded, Hr.
Qed.

End RunEdges.


(** ** The division of line 82 *)




Section RunExtras.

Context {E : Type} `{!Outside E}.

Implicit Types (w : World E) (sf : option (Strategy E)) (t : Tally).

(** X6. When, as a run starts, no row of the dataset misses a value and
    every score is one of 1, 0.3, 0, -0.3, -1 (the empty dataset is such
    a dataset), then once the loop has returned the same holds of every
    row of the dataset, and so of the file: no other score is ever
    written. *)
Theorem create_dataset_labels (n : Z) sf w t w1 :
  Forall (fun r => scored r = true) (dataset w) ->
  play_sets sf (Z.to_nat n) no_sets (started w) = Returns t w1 ->
  Forall (fun r => scored r = true)
    (dataset (final_state (create_dataset n sf w))) /\
  exists f,
    files (final_state (create_dataset n sf w)) !! DATASET_FILE_NAME =
      Some f /\
    Forall (fun r => scored r = true) (records f).
Proof.
  intros Hall Hloop.
  destruct (create_dataset_after_loop n sf w t w1 Hloop) as [-> ->].
  assert (Hlab : Forall (fun r => scored r = true) (dataset w1)).
  { exact (play_sets_scored sf (Z.to_nat n) no_sets (started w) t w1
             Hall Hloop). }
  split; [exact Hlab|].
  eexists. split; [apply lookup_insert_eq|exact Hlab].
Qed.

(** X7. In the report of a run that returns, no counter is negative and
    the three of them add up to the number of sets played: to
    [learning_sets], or to 0 when [learning_sets] is negative; the
    count printed as played is [learning_sets] itself. *)
Theorem create_dataset_tally (n : Z) sf w (rep : Report) w' :
  create_dataset n sf w = Returns rep w' ->
  0 <= sets_won (tally rep) /\ 0 <= draws (tally rep) /\
  0 <= sets_lost (tally rep) /\
  sets_won (tally rep) + draws (tally rep) + sets_lost (tally rep) =
    Z.max 0 n /\
  played rep = n.
Proof.
  unfold create_dataset.
  destruct (play_sets sf (Z.to_nat n) no_sets (started w))
    as [t w1|e w1] eqn:Hloop; [|discriminate].
  destruct (timer (ext (persisted w1))) as [stop e3].
  destruct (py_truediv n (py_int (stop - fst (timer (ext w)))))
    as [err|per_sec]; [discriminate|].
  intros [= <- _]. simpl.
  apply play_sets_tally in Hloop. simpl in Hloop. lia.
Qed.

(** X8. With [learning_sets] zero or negative no set is played: the
    dataset stays as it was and is written to the file as it is, and a
    report, if the run gets to one, has all three counters at 0. *)
Theorem create_dataset_no_sets (n : Z) sf w :
  n <= 0 ->
  dataset (final_state (create_dataset n sf w)) = dataset w /\
  files (final_state (create_dataset n sf w)) =
    <[DATASET_FILE_NAME := to_csv (dataset w)]> (files w) /\
  (forall rep w', create_dataset n sf w = Returns rep w' ->
     tally rep = no_sets).
Proof.
  intros Hn.
  assert (Hloop : play_sets sf (Z.to_nat n) no_sets (started w) =
                  Returns no_sets (started w)).
  { replace (Z.to_nat n) with O by lia. reflexivity. }
  destruct (create_dataset_after_loop n sf w _ _ Hloop) as [Hds Hfs].
  split; [exact Hds|]. split; [exact Hfs|].
  intros rep w'. unfold create_dataset. rewrite Hloop.
  destruct (timer (ext (persisted (started w)))) as [stop e3].
  destruct (py_truediv n (py_int (stop - fst (timer (ext w)))))
    as [err|per_sec]; [discriminate|].
  intros [= <- _]. reflexivity.
Qed.

(** X9. When a set raises (the strategy, a bad index, the engine, the
    resolution on an empty dataset), the run raises the same exception
    at once: no file is written, and the dataset keeps every row it had,
    with its features, behind which the rows of the sets played so far
    remain. *)
Theorem create_dataset_aborted (n : Z) sf w (e : exn) w1 :
  play_sets sf (Z.to_nat n) no_sets (started w) = Raises e w1 ->
  create_dataset n sf w = Raises e w1 /\
  files w1 = files w /\
  rows_kept (dataset w) (dataset w1) /\
  (length (dataset w) <= length (dataset w1))%nat.
Proof.
  intros Hloop.
  destruct (play_sets_outcome sf (Z.to_nat n) no_sets (started w))
    as [Hfs Hrows].
  rewrite Hloop in Hfs, Hrows. simpl in Hfs, Hrows.
  split; [unfold create_dataset; rewrite Hloop; reflexivity|].
  split; [exact Hfs|]. split; [exact Hrows|].
  apply rows_kept_length. exact Hrows.
Qed.


(** A run and the files it does not name. *)
Lemma create_dataset_files_elsewhere (n : Z) sf w (path : string) :
  path <> DATASET_FILE_NAME ->
  files (final_state (create_dataset n sf w)) !! path = files w !! path.
Proof.
  intros Hpath.
  destruct (play_sets_outcome sf (Z.to_nat n) no_sets (started w))
    as [Hfs _].
  destruct (play_sets sf (Z.to_nat n) no_sets (started w))
    as [t w1|e w1] eqn:Hloop.
  - destruct (create_dataset_after_loop n sf w t w1 Hloop) as [_ ->].
    simpl in Hfs. rewrite lookup_insert_ne by congruence.
    rewrite Hfs. reflexivity.
  - unfold create_dataset. rewrite Hloop. simpl in *. rewrite Hfs.
    reflexivity.
Qed.

(** X11. However a run ends, the only file it can have written is the
    dataset file: every other path holds what it held. *)
Theorem create_dataset_other_files (n : Z) sf w (path : string) :
  path <> DATASET_FILE_NAME ->
  files (final_state (create_dataset n sf w)) !! path = files w !! path.
Proof. apply create_dataset_files_elsewhere. Qed.

(** X12. A run of at least one set, once its loop has returned, leaves
    no missing value in the dataset, whatever the dataset held when the
    run started: rows left unresolved by an earlier, aborted run are
    resolved with the first set that ends. *)
Theorem create_dataset_resolves_leftovers (n : Z) sf w t w1 :
  0 < n ->
  play_sets sf (Z.to_nat n) no_sets (started w) = Returns t w1 ->
  Forall (fun r => complete r = true /\ unresolved r = false)
    (dataset (final_state (create_dataset n sf w))).
Proof.
  intros Hn Hloop.
  destruct (create_dataset_after_loop n sf w t w1 Hloop) as [-> _].
  destruct (play_sets_returns _ _ _ _ _ _ Hloop) as (_ & Hall & _ & _).
  eapply Forall_impl; [apply Hall; right; lia|].
  intros r Hr. split; [exact Hr|apply complete_resolved; exact Hr].
Qed.

End RunExtras.

(** ** The pipeline at its edges *)

Lemma getcol_app (c : string) (df1 df2 : Frame) :
  getcol c (df1 ++ df2) =
  match getcol c df1 with
  | Some col => Some col
  | None => getcol c df2
  end.
Proof.
  induction df1 as [|[n col] df1 IH]; simpl; [reflexivity|].
  destruct (String.eqb n c); [reflexivity|exact IH].
Qed.

Lemma getcol_fmap_replace (c c' : string) (col : list cell) (df : Frame) :
  getcol c
    ((fun p : string * list cell =>
        if String.eqb (fst p) c' then (fst p, col) else p) <$> df) =
  if String.eqb c' c
  then match getcol c df with Some _ => Some col | None => None end
  else getcol c df.
Proof.
  induction df as [|[n x] df IH]; simpl.
  - destruct (String.eqb c' c); reflexivity.
  - destruct (String.eqb_spec n c') as [->|Hn]; simpl.
    + destruct (String.eqb c' c); [reflexivity|exact IH].
    + destruct (String.eqb_spec n c) as [->|Hc].
      * destruct (String.eqb_spec c' c) as [->|_]; [congruence|reflexivity].
      * exact IH.
Qed.

(** Reading a column after [df[c'] = col]. *)
Lemma getcol_setcol (c c' : string) (col : list cell) (df : Frame) :
  getcol c (setcol c' col df) =
  if String.eqb c' c then Some col else getcol c df.
Proof.
  unfold setcol. destruct (getcol c' df) as [old|] eqn:Hold.
  - rewrite getcol_fmap_replace.
    destruct (String.eqb_spec c' c) as [->|_]; [|reflexivity].
    rewrite Hold. reflexivity.
  - rewrite getcol_app. simpl.
    destruct (String.eqb_spec c' c) as [->|_].
    + rewrite Hold. reflexivity.
    + destruct (getcol c df); reflexivity.
Qed.

(** Reading a column after [drop(columns=cs)]. *)
Lemma getcol_without (c : string) (cs : list string) (df : Frame) :
  getcol c (without cs df) =
  if bool_decide (c ∈ cs) then None else getcol c df.
Proof.
  unfold without. induction df as [|[n x] df IH]; simpl.
  - destruct (bool_decide (c ∈ cs)); reflexivity.
  - destruct (bool_decide (n ∈ cs)) eqn:Hn; simpl.
    + rewrite IH. destruct (String.eqb_spec n c) as [->|_]; [|reflexivity].
      rewrite Hn. reflexivity.
    + destruct (String.eqb_spec n c) as [->|_]; [|exact IH].
      rewrite Hn. reflexivity.
Qed.

Lemma drop_columns_single (c : string) (df : Frame) :
  drop_columns [c] df =
  match getcol c df with
  | Some _ => inr (without [c] df)
  | None => inl (KeyError c)
  end.
Proof.
  unfold drop_columns, without. simpl.
  destruct (getcol c df); reflexivity.
Qed.

(** The arithmetic refuses with [TypeError] and nothing else; what the
    subtraction gives is the difference row by row, and so is the sum
    unless both columns are booleans or both are text. *)
Lemma series_sub_inl (a b : list cell) (e : exn) :
  series_sub a b = inl e -> e = TypeError.
Proof.
  unfold series_sub.
  destruct (kind_of a), (kind_of b), (existsb both_present (zip a b));
    intros H; try discriminate H; injection H as <-; reflexivity.
Qed.

Lemma series_add_inl (a b : list cell) (e : exn) :
  series_add a b = inl e -> e = TypeError.
Proof.
  unfold series_add.
  destruct (kind_of a), (kind_of b), (existsb both_present (zip a b));
    intros H; try discriminate H; injection H as <-; reflexivity.
Qed.

Lemma series_sub_inr (a b d : list cell) :
  series_sub a b = inr d -> d = zip_with cell_sub a b.
Proof.
  unfold series_sub.
  destruct (kind_of a), (kind_of b), (existsb both_present (zip a b));
    intros H; try discriminate H; injection H as <-; reflexivity.
Qed.

Lemma series_add_inr (a b p : list cell) :
  series_add a b = inr p ->
  kind_of a <> kind_of b \/ kind_of a = Numbers \/ kind_of a = Objects ->
  p = zip_with cell_add a b.
Proof.
  unfold series_add.
  destruct (kind_of a), (kind_of b), (existsb both_present (zip a b));
    intros H Hk; try discriminate H; injection H as <-;
    try reflexivity; destruct Hk as [Hk|[Hk|Hk]]; congruence.
Qed.

(** [engineer] on any frame, step by step in the order of lines
    108-115: what it raises at the first step that fails, and what it
    returns when none does. *)
Lemma engineer_cases (df : Frame) :
  match getcol "self_score" df, getcol "opp_score" df with
  | None, _ => engineer df = inl (AttributeError "self_score")
  | Some _, None => engineer df = inl (AttributeError "opp_score")
  | Some s, Some o =>
      match series_sub s o with
      | inl e => engineer df = inl e
      | inr d =>
          match getcol "result_card_val" df with
          | None => engineer df = inl (AttributeError "result_card_val")
          | Some c =>
              match series_add s c with
              | inl e => engineer df = inl e
              | inr p =>
                  match getcol "score" df with
                  | None => engineer df = inl (KeyError "score")
                  | Some y =>
                      engineer df =
                        inr (without ["score"]
                               (without ["result_card_val"]
                                  (setcol "score_if_card_played" p
                                     (without ["opp_score"]
                                        (setcol "score_difference" d df)))),
                             y)
                  end
              end
          end
      end
  end.
Proof.
  unfold engineer, column.
  destruct (getcol "self_score" df) as [s|] eqn:Hs; [|reflexivity].
  destruct (getcol "opp_score" df) as [o|] eqn:Ho; [|reflexivity].
  simpl. destruct (series_sub s o) as [e|d]; [reflexivity|]. simpl.
  rewrite drop_columns_single, getcol_setcol, Ho. simpl.
  rewrite !getcol_without, !getcol_setcol, Hs. simpl.
  destruct (getcol "result_card_val" df) as [c|] eqn:Hc; [|reflexivity].
  simpl. destruct (series_add s c) as [e|p]; [reflexivity|]. simpl.
  rewrite drop_columns_single, getcol_setcol, getcol_without, getcol_setcol.
  simpl. rewrite Hc. simpl.
  rewrite drop_columns_single.
  rewrite !getcol_without, !getcol_setcol, !getcol_without, !getcol_setcol.
  simpl.
  destruct (getcol "score" df) as [y|] eqn:Hy; reflexivity.
Qed.

(** X13. On a frame with distinct column names, as [read_csv] gives
    them, feature engineering fails at the first of its steps that
    fails, in the order the lines run: a missing [self_score], then a
    missing [opp_score], is a missing attribute ([AttributeError]); the
    subtraction may refuse the kinds of its columns ([TypeError]); then
    a missing [result_card_val] is a missing attribute; the addition may
    refuse ([TypeError]); at last a missing [score] is a [KeyError],
    from [drop].  When none of these steps fails, engineering gets
    through and the label is the column [score]. *)
Theorem engineer_missing_column (df : Frame) :
  NoDup (fst <$> df) ->
  match getcol "self_score" df, getcol "opp_score" df with
  | None, _ => engineer df = inl (AttributeError "self_score")
  | Some _, None => engineer df = inl (AttributeError "opp_score")
  | Some s, Some o =>
      match series_sub s o with
      | inl e => engineer df = inl e /\ e = TypeError
      | inr _ =>
          match getcol "result_card_val" df with
          | None => engineer df = inl (AttributeError "result_card_val")
          | Some c =>
              match series_add s c with
              | inl e => engineer df = inl e /\ e = TypeError
              | inr _ =>
                  match getcol "score" df with
                  | None => engineer df = inl (KeyError "score")
                  | Some y => exists X, engineer df = inr (X, y)
                  end
              end
          end
      end
  end.
Proof.
  intros _. pose proof (engineer_cases df) as Hcases.
  destruct (getcol "self_score" df) as [s|]; [|exact Hcases].
  destruct (getcol "opp_score" df) as [o|]; [|exact Hcases].
  destruct (series_sub s o) as [e|d] eqn:Hsub.
  { split; [exact Hcases|]. eapply series_sub_inl, Hsub. }
  destruct (getcol "result_card_val" df) as [c|]; [|exact Hcases].
  destruct (series_add s c) as [e|p] eqn:Hadd.
  { split; [exact Hcases|]. eapply series_add_inl, Hadd. }
  destruct (getcol "score" df) as [y|]; [|exact Hcases].
  eexists. exact Hcases.
Qed.

(** X14. On a frame with distinct column names, when feature engineering
    gets through: the label [y] is the column [score] of the frame; the
    features [X] have no column [score], [opp_score] or
    [result_card_val]; they have [self_score] as it was, and
    [score_difference] and [score_if_card_played] computed row by row
    from the frame's columns: the difference, and what [+] makes of the
    two columns, which is the sum unless both are columns of booleans
    or both are columns of text; and every column of another name is in
    [X] exactly as the frame has it. *)
Theorem engineer_features (df X : Frame) (y : list cell) :
  NoDup (fst <$> df) ->
  engineer df = inr (X, y) ->
  getcol "score" df = Some y /\
  getcol "score" X = None /\
  getcol "opp_score" X = None /\
  getcol "result_card_val" X = None /\
  (exists s o c p,
     getcol "self_score" df = Some s /\
     getcol "opp_score" df = Some o /\
     getcol "result_card_val" df = Some c /\
     getcol "self_score" X = Some s /\
     getcol "score_difference" X = Some (zip_with cell_sub s o) /\
     series_add s c = inr p /\
     getcol "score_if_card_played" X = Some p /\
     (kind_of s <> kind_of c \/ kind_of s = Numbers \/
      kind_of s = Objects ->
      p = zip_with cell_add s c)) /\
  (forall c,
     c ∉ ["opp_score"; "result_card_val"; "score";
          "score_difference"; "score_if_card_played"] ->
     getcol c X = getcol c df).
Proof.
  intros _ Heng. pose proof (engineer_cases df) as Hcases.
  destruct (getcol "self_score" df) as [s|] eqn:Hs; [|congruence].
  destruct (getcol "opp_score" df) as [o|] eqn:Ho; [|congruence].
  destruct (series_sub s o) as [e|d] eqn:Hsub; [congruence|].
  destruct (getcol "result_card_val" df) as [c|] eqn:Hc; [|congruence].
  destruct (series_add s c) as [e|p] eqn:Hadd; [congruence|].
  destruct (getcol "score" df) as [y'|] eqn:Hy; [|congruence].
  rewrite Hcases in Heng. injection Heng as <- <-.
  apply series_sub_inr in Hsub. subst d.
  split; [reflexivity|].
  rewrite !getcol_without, !getcol_setcol, !getcol_without, !getcol_setcol.
  simpl. rewrite Hs.
  split; [reflexivity|]. split; [reflexivity|]. split; [reflexivity|].
  split.
  - exists s, o, c, p. repeat split; try reflexivity.
    + exact Hadd.
    + intros Hk. eapply series_add_inr; eassumption.
  - intros n Hn.
    rewrite !getcol_without, !getcol_setcol, !getcol_without, !getcol_setcol.
    rewrite !not_elem_of_cons in Hn.
    destruct Hn as (H1 & H2 & H3 & H4 & H5 & _).
    rewrite !bool_decide_eq_false_2
      by (rewrite list_elem_of_singleton; assumption).
    destruct (String.eqb_spec "score_if_card_played" n); [congruence|].
    destruct (String.eqb_spec "score_difference" n); [congruence|].
    reflexivity.
Qed.

(** ** From the dataset file to the model *)

(** On a file whose scores and card values are numbers, engineering
    gets through and gives the feature frame. *)
Lemma engineer_read_csv (rows : DataFrame) :
  Forall (fun r => numeric r = true) rows ->
  engineer (read_csv (to_csv rows)) = inr (feature_frame rows, score <$> rows).
Proof.
  intros Hnum. destruct (numeric_columns rows Hnum) as (Hs & Ho & Hc).
  unfold engineer, read_csv, to_csv, columns, column, feature_frame. simpl.
  rewrite (series_sub_numbers _ _ Hs Ho). simpl.
  rewrite (series_add_numbers _ _ Hs Hc). simpl.
  rewrite !zip_with_fmap_same. reflexivity.
Qed.

(** The derived features of such rows are numbers. *)
Lemma derived_columns_numbers (rows : DataFrame) :
  Forall (fun r => numeric r = true) rows ->
  Forall (fun c => is_num c = true) (score_difference <$> rows) /\
  Forall (fun c => is_num c = true) (score_if_card_played <$> rows).
Proof.
  intros Hnum. split; apply Forall_fmap;
    (eapply Forall_impl; [exact Hnum|]); intros [a b c d e f];
    unfold numeric, score_difference, score_if_card_played; simpl;
    destruct a, b, d; simpl; intros H; try discriminate H; reflexivity.
Qed.

Section PipelineExtras.

Context {Model : Type} `{!Sklearn Model}.

(** What [train_model] has done when it returns, and where its
    exception comes from when it raises. *)
Lemma train_model_inr (regressor : Model) (d m : string)
    (csvs : gmap string CsvFile) (out : Artifacts Model) (r2 : Q)
    (out' : Artifacts Model) :
  train_model regressor d m csvs out = inr (r2, out') ->
  exists f fitted,
    csvs !! d = Some f /\
    trained_on regressor f fitted /\
    models out' = <[m := fitted]> (models out) /\
    if is_decision_tree regressor
    then exists dot,
           export_graphviz fitted feature_names = inr dot /\
           graphs out' = <[GRAPHVIZ_FILE_NAME := dot]> (graphs out)
    else graphs out' = graphs out.
Proof.
  unfold train_model, trained_on.
  destruct (csvs !! d) as [f|]; [|discriminate].
  destruct (engineer (read_csv f)) as [e|[X y]] eqn:Heng; [discriminate|].
  simpl.
  destruct (train_test_split X y) as [e|[[[Xtr Xte] ytr] yte]] eqn:Hsplit;
    [discriminate|]. simpl.
  destruct (fit regressor Xtr ytr) as [e|fitted] eqn:Hfit; [discriminate|].
  simpl.
  destruct (r2_score fitted Xte yte) as [e|sc]; [discriminate|]. simpl.
  destruct (is_decision_tree regressor).
  - destruct (export_graphviz fitted feature_names) as [e|dot] eqn:Hdot;
      [discriminate|]. simpl.
    intros [= <- <-]. exists f, fitted. split; [reflexivity|].
    split; [exists X, y, Xtr, Xte, ytr, yte; auto|].
    split; [reflexivity|]. exists dot. auto.
  - simpl. intros [= <- <-]. exists f, fitted. split; [reflexivity|].
    split; [exists X, y, Xtr, Xte, ytr, yte; auto|].
    split; reflexivity.
Qed.

Lemma train_model_inl (regressor : Model) (d m : string)
    (csvs : gmap string CsvFile) (out : Artifacts Model) (f : CsvFile)
    (X : Frame) (y : list cell) (e : exn) :
  csvs !! d = Some f ->
  engineer (read_csv f) = inr (X, y) ->
  train_model regressor d m csvs out = inl e ->
  raised_in_training regressor X y e.
Proof.
  intros Hfile Heng. unfold train_model, raised_in_training.
  rewrite Hfile, Heng. simpl.
  destruct (train_test_split X y) as [e0|[[[Xtr Xte] ytr] yte]];
    [intros [= <-]; left; reflexivity|]. simpl.
  intros Htrain. right. exists Xtr, Xte, ytr, yte. split; [reflexivity|].
  destruct (fit regressor Xtr ytr) as [e0|fitted];
    [injection Htrain as <-; left; reflexivity|]. simpl in Htrain.
  right. exists fitted. split; [reflexivity|].
  destruct (r2_score fitted Xte yte) as [e0|sc];
    [injection Htrain as <-; left; reflexivity|]. simpl in Htrain.
  right. destruct (is_decision_tree regressor); [|discriminate Htrain].
  split; [reflexivity|].
  destruct (export_graphviz fitted feature_names) as [e0|dot];
    [injection Htrain as <-; reflexivity|discriminate Htrain].
Qed.

Context `{!Estimators Model}.

(** X15. The synthesis and the training fit together up to the
    library: when the two scores and the card value of every row are
    numbers as a run starts (the dataset the module is loaded with is
    such a one) and the loop has returned, [train_model] with its
    default arguments finds the file the run has written and gets
    through the feature engineering on it: it meets no missing file, no
    missing column and no refused arithmetic, the two derived columns
    hold numbers, and an exception, if it raises one, comes from the
    split, the fit, the score or the export of the graph. *)
Theorem dataset_then_train_model {E : Type} `{!Outside E} (n : Z)
    (sf : option (Strategy E)) (w : World E) (t : Tally) (w1 : World E)
    (out : Artifacts Model) :
  Forall (fun r => numeric r = true) (dataset w) ->
  play_sets sf (Z.to_nat n) no_sets (started w) = Returns t w1 ->
  exists X y,
    files (final_state (create_dataset n sf w)) !! DATASET_FILE_NAME =
      Some (to_csv (dataset w1)) /\
    engineer (read_csv (to_csv (dataset w1))) = inr (X, y) /\
    y = score <$> dataset w1 /\
    getcol "score_difference" X = Some (score_difference <$> dataset w1) /\
    getcol "score_if_card_played" X =
      Some (score_if_card_played <$> dataset w1) /\
    Forall (fun c => is_num c = true) (score_difference <$> dataset w1) /\
    Forall (fun c => is_num c = true)
      (score_if_card_played <$> dataset w1) /\
    forall e,
      train_model_default (files (final_state (create_dataset n sf w))) out =
        inl e ->
      raised_in_training (DecisionTreeRegressor 3 42) X y e.
Proof.
  intros Hall Hloop.
  destruct (create_dataset_after_loop n sf w t w1 Hloop) as [_ Hfs].
  assert (Hfile : files (final_state (create_dataset n sf w))
                    !! DATASET_FILE_NAME = Some (to_csv (dataset w1))).
  { rewrite Hfs. apply lookup_insert_eq. }
  assert (Hnum : Forall (fun r => numeric r = true) (dataset w1)).
  { exact (play_sets_numeric sf (Z.to_nat n) no_sets (started w) t w1
             Hall Hloop). }
  pose proof (engineer_read_csv _ Hnum) as Heng.
  destruct (derived_columns_numbers _ Hnum) as [Hd Hp].
  exists (feature_frame (dataset w1)), (score <$> dataset w1).
  split; [exact Hfile|]. split; [exact Heng|]. split; [reflexivity|].
  split; [reflexivity|]. split; [reflexivity|].
  split; [exact Hd|]. split; [exact Hp|].
  intros e Htrain. unfold train_model_default in Htrain.
  eapply train_model_inl; eassumption.
Qed.

(** X16. The two shorthands do not read the file [create_dataset]
    writes: each reads its own dataset file, and on the files a run
    leaves behind, when those held neither of the two before, both
    raise [FileNotFoundError] for their own path. *)
Theorem presets_need_their_own_files {E : Type} `{!Outside E} (n : Z)
    (sf : option (Strategy E)) (w : World E) (out : Artifacts Model) :
  files w !! DECISION_TREE_DEFAULT_DATASET = None ->
  files w !! RANDOM_FOREST_DEFAULT_DATASET = None ->
  train_decision_tree (files (final_state (create_dataset n sf w))) out =
    inl (FileNotFoundError DECISION_TREE_DEFAULT_DATASET) /\
  train_random_forest (files (final_state (create_dataset n sf w))) out =
    inl (FileNotFoundError RANDOM_FOREST_DEFAULT_DATASET).
Proof.
  intros Htree Hforest.
  unfold train_decision_tree, train_random_forest, train_model.
  rewrite !create_dataset_files_elsewhere by discriminate.
  rewrite Htree, Hforest. split; reflexivity.
Qed.

(** X17. The two shorthands side by side: when training the tree and
    then the forest both get through, each model is stored under its
    own name and is the estimator fitted on the training part of its own
    dataset file, any other stored model is left alone, and the graph
    that is written is the tree's (the forest writes none). *)
Theorem presets_side_by_side (csvs : gmap string CsvFile)
    (out out1 out2 : Artifacts Model) :
  train_decision_tree csvs out = inr out1 ->
  train_random_forest csvs out1 = inr out2 ->
  exists f_dt f_rf tree forest dot,
    csvs !! DECISION_TREE_DEFAULT_DATASET = Some f_dt /\
    csvs !! RANDOM_FOREST_DEFAULT_DATASET = Some f_rf /\
    trained_on (DecisionTreeRegressor 3 42) f_dt tree /\
    trained_on (RandomForestRegressor 4 42) f_rf forest /\
    models out2 !! DECISION_TREE_DEFAULT_MODEL = Some tree /\
    models out2 !! RANDOM_FOREST_DEFAULT_MODEL = Some forest /\
    (forall path,
       path <> DECISION_TREE_DEFAULT_MODEL ->
       path <> RANDOM_FOREST_DEFAULT_MODEL ->
       models out2 !! path = models out !! path) /\
    export_graphviz tree feature_names = inr dot /\
    graphs out2 = <[GRAPHVIZ_FILE_NAME := dot]> (graphs out).
Proof.
  unfold train_decision_tree, train_random_forest.
  intros Htree Hforest.
  destruct (train_model (DecisionTreeRegressor 3 42) _ _ csvs out)
    as [e|[r1 o1]] eqn:H1; [discriminate|].
  simpl in Htree. injection Htree as <-.
  destruct (train_model (RandomForestRegressor 4 42) _ _ csvs o1)
    as [e|[r2 o2]] eqn:H2; [discriminate|].
  simpl in Hforest. injection Hforest as <-.
  apply train_model_inr in H1. apply train_model_inr in H2.
  destruct H1 as (f_dt & tree & Hf1 & Ht1 & Hm1 & Hg1).
  destruct H2 as (f_rf & forest & Hf2 & Ht2 & Hm2 & Hg2).
  rewrite tree_is_tree in Hg1. rewrite forest_is_no_tree in Hg2.
  destruct Hg1 as (dot & Hdot & Hg1).
  exists f_dt, f_rf, tree, forest, dot.
  split; [exact Hf1|]. split; [exact Hf2|].
  split; [exact Ht1|]. split; [exact Ht2|].
  rewrite Hm2, Hm1, Hg2, Hg1.
  split; [rewrite lookup_insert_ne by discriminate; apply lookup_insert_eq|].
  split; [apply lookup_insert_eq|].
  split; [|split; [exact Hdot|reflexivity]].
  intros path Hdt Hrf.
  rewrite !lookup_insert_ne by congruence. reflexivity.
Qed.

End PipelineExtras.

(** ** The report and the winners *)

Section ReportFacts.

Context {E : Type} `{!Outside E}.

Implicit Types (w : World E) (sf : option (Strategy E)) (t : Tally).

Lemma resolve_counts (winner : option Player) t w t' w' :
  resolve winner t w = Returns t' w' ->
  sets_won t' = sets_won t + Z.b2z (is_win winner) /\
  draws t' = draws t + Z.b2z (is_draw winner) /\
  sets_lost t' = sets_lost t + Z.b2z (is_loss winner).
Proof.
  unfold resolve, is_win, is_draw, is_loss. destruct winner as [pl|].
  - destruct (String.eqb (name pl) "MLTrainee").
    + destruct (iloc_set_last_score 1 _); [discriminate|].
      intros [= <- _]. simpl. lia.
    + destruct (iloc_set_last_score (-1) _); [discriminate|].
      intros [= <- _]. simpl. lia.
  - intros [= <- _]. simpl. lia.
Qed.

Lemma play_sets_counts sf (n : nat) t w t' w' :
  play_sets sf n t w = Returns t' w' ->
  length (winners_per_set sf n t w) = n /\
  sets_won t' =
    sets_won t +
    Z.of_nat (length (List.filter is_win (winners_per_set sf n t w))) /\
  draws t' =
    draws t +
    Z.of_nat (length (List.filter is_draw (winners_per_set sf n t w))) /\
  sets_lost t' =
    sets_lost t +
    Z.of_nat (length (List.filter is_loss (winners_per_set sf n t w))).
Proof.
  revert t w. induction n as [|n IH]; intros t w; simpl.
  - intros [= <- _]. simpl. lia.
  - unfold play_one_set. destruct (seated w) as [p w0]. simpl.
    destruct (run_set sf p w0) as [winner w1|e w1]; [|discriminate].
    destruct (resolve winner t w1) as [t1 w2|e w2] eqn:Hres; [|discriminate].
    intros Hrest. apply resolve_counts in Hres. apply IH in Hrest.
    simpl.
    destruct winner as [pl|]; simpl in *;
      [destruct (String.eqb (name pl) "MLTrainee"); simpl in *|]; lia.
Qed.

(** X18. The report of a run that returns tells the sets apart as the
    engine has decided them: [sets_won] is the number of sets whose
    winner is named MLTrainee, [draws] the number of sets without a
    winner, and [sets_lost] the number of sets with any other winner;
    there is one winner entry for each set played. *)
Theorem create_dataset_counts_winners (n : Z) sf w (rep : Report) w' :
  create_dataset n sf w = Returns rep w' ->
  let winners := winners_per_set sf (Z.to_nat n) no_sets (started w) in
  length winners = Z.to_nat n /\
  sets_won (tally rep) = Z.of_nat (length (List.filter is_win winners)) /\
  draws (tally rep) = Z.of_nat (length (List.filter is_draw winners)) /\
  sets_lost (tally rep) = Z.of_nat (length (List.filter is_loss winners)).
Proof.
  unfold create_dataset.
  destruct (play_sets sf (Z.to_nat n) no_sets (started w))
    as [t w1|e w1] eqn:Hloop; [|discriminate].
  destruct (timer (ext (persisted w1))) as [stop e3].
  destruct (py_truediv n (py_int (stop - fst (timer (ext w)))))
    as [err|per_sec]; [discriminate|].
  intros [= <- _]. simpl.
  apply play_sets_counts in Hloop. simpl in Hloop. exact Hloop.
Qed.

End ReportFacts.

(** ** These facts at work on the small worlds *)

Import Workshop.

Lemma record_results_card_index_witness :
  select_strategy (Some play_fifth) (ext fresh) = (play_fifth, O) /\
  play_fifth hand 12 9 false O = Returns (true, 4, false) O /\
  (4 < - Z.of_nat (length hand) \/ Z.of_nat (length hand) <= 4) /\
  exists w',
    record_results hand 12 9 false (Some play_fifth) fresh =
      Raises IndexError w' /\
    dataset w' = dataset fresh /\ files w' = files fresh.
Proof.
  assert (Hout : 4 < - Z.of_nat (length hand) \/ Z.of_nat (length hand) <= 4).
  { right. simpl. lia. }
  split; [reflexivity|]. split; [reflexivity|]. split; [exact Hout|].
  apply (record_results_card_index hand 12 9 false (Some play_fifth) fresh
           play_fifth O O false 4 eq_refl eq_refl).
  exact Hout.
Defined.

Lemma run_set_keeps_rows_on_exception_witness :
  run_set (Some fragile) (set_number 0) fresh =
    Raises (OtherError "strategy failed") broken_set /\
  exists new,
    dataset broken_set = dataset fresh ++ new /\
    length new = decisions (Some fragile) (set_number 0) fresh /\
    Forall (fun r => recorded r = true /\ unresolved r = true) new /\
    files broken_set = files fresh.
Proof.
  split; [vm_compute; reflexivity|].
  apply (run_set_keeps_rows_on_exception (Some fragile) (set_number 0) fresh
           (OtherError "strategy failed") broken_set).
  vm_compute. reflexivity.
Defined.

Lemma resolve_without_decisions_witness :
  run_set None (silent (Some Opponent)) after_one_run =
    Returns (Some Opponent) after_one_run /\
  decisions None (silent (Some Opponent)) after_one_run = 0%nat /\
  dataset after_one_run =
    [set_score (Num (3 # 10)) (recorded_row 12 9 false 0 false)] ++
    [set_score (Num 1) (recorded_row 19 9 true 0 true)] /\
  Forall (fun r => complete r = true) (dataset after_one_run) /\
  exists t' w2,
    resolve (Some Opponent) no_sets after_one_run = Returns t' w2 /\
    dataset w2 =
      [set_score (Num (3 # 10)) (recorded_row 12 9 false 0 false)] ++
      [set_score (Num (-1))
         (set_score (Num 1) (recorded_row 19 9 true 0 true))].
Proof.
  assert (Hall : Forall (fun r => complete r = true) (dataset after_one_run)).
  { vm_compute. repeat constructor. }
  split; [vm_compute; reflexivity|]. split; [reflexivity|].
  split; [vm_compute; reflexivity|]. split; [exact Hall|].
  apply (resolve_without_decisions None (silent (Some Opponent))
           after_one_run Opponent after_one_run no_sets
           [set_score (Num (3 # 10)) (recorded_row 12 9 false 0 false)]
           (set_score (Num 1) (recorded_row 19 9 true 0 true)));
    [vm_compute; reflexivity|reflexivity|vm_compute; reflexivity|exact Hall].
Defined.

Lemma create_dataset_labels_witness :
  Forall (fun r => scored r = true) (dataset fresh) /\
  play_sets None (Z.to_nat 1) no_sets (started fresh) =
    Returns {| sets_won := 1; draws := 0; sets_lost := 0 |}
      (final_state (play_sets None (Z.to_nat 1) no_sets (started fresh))) /\
  Forall (fun r => scored r = true)
    (dataset (final_state (create_dataset 1 None fresh))) /\
  exists f,
    files (final_state (create_dataset 1 None fresh)) !! DATASET_FILE_NAME =
      Some f /\
    Forall (fun r => scored r = true) (records f).
Proof.
  assert (Hall : Forall (fun r => scored r = true) (dataset fresh)).
  { constructor. }
  split; [exact Hall|]. split; [vm_compute; reflexivity|].
  apply (create_dataset_labels 1 None fresh
           {| sets_won := 1; draws := 0; sets_lost := 0 |}
           (final_state (play_sets None (Z.to_nat 1) no_sets (started fresh))));
    [exact Hall|vm_compute; reflexivity].
Defined.

Lemma create_dataset_tally_witness :
  create_dataset 1 None fresh =
    Returns {| tally := {| sets_won := 1; draws := 0; sets_lost := 0 |};
               played := 1; total_time := 1; sets_per_sec := 1 |}
      (final_state (create_dataset 1 None fresh)) /\
  0 <= 1 /\ 0 <= 0 /\ 0 <= 0 /\ 1 + 0 + 0 = Z.max 0 1 /\ 1 = 1.
Proof.
  split; [vm_compute; reflexivity|].
  apply (create_dataset_tally 1 None fresh
           {| tally := {| sets_won := 1; draws := 0; sets_lost := 0 |};
              played := 1; total_time := 1; sets_per_sec := 1 |}
           (final_state (create_dataset 1 None fresh))).
  vm_compute. reflexivity.
Defined.

Lemma create_dataset_no_sets_witness :
  -2 <= 0 /\
  dataset (final_state (create_dataset (-2) None after_one_run)) =
    dataset after_one_run /\
  files (final_state (create_dataset (-2) None after_one_run)) =
    <[DATASET_FILE_NAME := to_csv (dataset after_one_run)]>
      (files after_one_run) /\
  (forall rep w',
     create_dataset (-2) None after_one_run = Returns rep w' ->
     tally rep = no_sets).
Proof.
  split; [lia|].
  apply (create_dataset_no_sets (-2) None after_one_run). lia.
Defined.

Lemma create_dataset_aborted_witness :
  play_sets (Some fragile) (Z.to_nat 1) no_sets (started fresh) =
    Raises (OtherError "strategy failed") aborted /\
  create_dataset 1 (Some fragile) fresh =
    Raises (OtherError "strategy failed") aborted /\
  files aborted = files fresh /\
  rows_kept (dataset fresh) (dataset aborted) /\
  (length (dataset fresh) <= length (dataset aborted))%nat.
Proof.
  split; [vm_compute; reflexivity|].
  apply (create_dataset_aborted 1 (Some fragile) fresh
           (OtherError "strategy failed") aborted).
  vm_compute. reflexivity.
Defined.


Lemma create_dataset_other_files_witness :
  MODEL_FILE_NAME <> DATASET_FILE_NAME /\
  files (final_state (create_dataset 1 None fresh)) !! MODEL_FILE_NAME =
    files fresh !! MODEL_FILE_NAME.
Proof.
  assert (Hne : MODEL_FILE_NAME <> DATASET_FILE_NAME) by discriminate.
  split; [exact Hne|].
  apply (create_dataset_other_files 1 None fresh MODEL_FILE_NAME Hne).
Defined.

Lemma create_dataset_resolves_leftovers_witness :
  0 < 1 /\
  play_sets None (Z.to_nat 1) no_sets (started aborted) =
    Returns {| sets_won := 1; draws := 0; sets_lost := 0 |}
      (final_state (play_sets None (Z.to_nat 1) no_sets (started aborted))) /\
  Forall (fun r => unresolved r = true) (dataset aborted) /\
  Forall (fun r => complete r = true /\ unresolved r = false)
    (dataset (final_state (create_dataset 1 None aborted))).
Proof.
  split; [lia|]. split; [vm_compute; reflexivity|].
  split; [vm_compute; repeat constructor|].
  apply (create_dataset_resolves_leftovers 1 None aborted
           {| sets_won := 1; draws := 0; sets_lost := 0 |}
           (final_state
              (play_sets None (Z.to_nat 1) no_sets (started aborted))));
    [lia|vm_compute; reflexivity].
Defined.

Lemma create_dataset_counts_winners_witness :
  create_dataset 1 None after_one_run =
    Returns {| tally := {| sets_won := 0; draws := 0; sets_lost := 1 |};
               played := 1; total_time := 1; sets_per_sec := 1 |}
      (final_state (create_dataset 1 None after_one_run)) /\
  winners_per_set None (Z.to_nat 1) no_sets (started after_one_run) =
    [Some Opponent] /\
  length (winners_per_set None (Z.to_nat 1) no_sets (started after_one_run)) =
    Z.to_nat 1 /\
  0 = Z.of_nat
        (length
           (List.filter is_win
              (winners_per_set None (Z.to_nat 1) no_sets
                 (started after_one_run)))) /\
  0 = Z.of_nat
        (length
           (List.filter is_draw
              (winners_per_set None (Z.to_nat 1) no_sets
                 (started after_one_run)))) /\
  1 = Z.of_nat
        (length
           (List.filter is_loss
              (winners_per_set None (Z.to_nat 1) no_sets
                 (started after_one_run)))).
Proof.
  split; [vm_compute; reflexivity|]. split; [vm_compute; reflexivity|].
  apply (create_dataset_counts_winners 1 None after_one_run
           {| tally := {| sets_won := 0; draws := 0; sets_lost := 1 |};
              played := 1; total_time := 1; sets_per_sec := 1 |}
           (final_state (create_dataset 1 None after_one_run))).
  vm_compute. reflexivity.
Defined.

Lemma engineer_missing_column_witness :
  NoDup (fst <$> no_opp_score) /\
  engineer no_opp_score = inl (AttributeError "opp_score").
Proof.
  assert (Hnd : NoDup (fst <$> no_opp_score)).
  { apply (bool_decide_unpack _). vm_compute. exact I. }
  split; [exact Hnd|].
  exact (engineer_missing_column no_opp_score Hnd).
Defined.

(** Line 108 refuses two columns of booleans. *)
Lemma engineer_boolean_scores : engineer boolean_scores = inl TypeError.
Proof. reflexivity. Qed.

(** Line 110 joins two columns of booleans with "or". *)
Lemma engineer_boolean_cards :
  exists X y,
    engineer boolean_cards = inr (X, y) /\
    getcol "score_difference" X = Some [Num (-4); Num (-5)] /\
    getcol "score_if_card_played" X = Some [Flag true; Flag false].
Proof.
  eexists _, _. split; [vm_compute; reflexivity|].
  split; vm_compute; reflexivity.
Qed.

(** Line 108 gets a column of text through when no row has both cells,
    and line 110 then refuses the text next to a number. *)
Lemma engineer_text_scores : engineer text_scores = inl TypeError.
Proof. reflexivity. Qed.

Lemma engineer_features_witness :
  NoDup (fst <$> with_turn) /\
  engineer with_turn =
    inr ([("turn", [Num 1]); ("self_score", [Num 10]);
          ("score_difference", [Num 5]); ("score_if_card_played", [Num 12])],
         [Num 1]) /\
  getcol "score"
    [("turn", [Num 1]); ("self_score", [Num 10]);
     ("score_difference", [Num 5]); ("score_if_card_played", [Num 12])] =
    None /\
  (forall c,
     c ∉ ["opp_score"; "result_card_val"; "score";
          "score_difference"; "score_if_card_played"] ->
     getcol c
       [("turn", [Num 1]); ("self_score", [Num 10]);
        ("score_difference", [Num 5]); ("score_if_card_played", [Num 12])] =
     getcol c with_turn).
Proof.
  assert (Hnd : NoDup (fst <$> with_turn)).
  { apply (bool_decide_unpack _). vm_compute. exact I. }
  assert (Heng : engineer with_turn =
    inr ([("turn", [Num 1]); ("self_score", [Num 10]);
          ("score_difference", [Num 5]); ("score_if_card_played", [Num 12])],
         [Num 1])).
  { vm_compute. reflexivity. }
  split; [exact Hnd|]. split; [exact Heng|].
  destruct (engineer_features with_turn _ _ Hnd Heng)
    as (_ & Hscore & _ & _ & _ & Hother).
  split; [exact Hscore|exact Hother].
Defined.

Lemma dataset_then_train_model_witness :
  Forall (fun r => numeric r = true) (dataset fresh) /\
  play_sets None (Z.to_nat 1) no_sets (started fresh) =
    Returns {| sets_won := 1; draws := 0; sets_lost := 0 |}
      (final_state (play_sets None (Z.to_nat 1) no_sets (started fresh))) /\
  exists X y,
    files (final_state (create_dataset 1 None fresh)) !! DATASET_FILE_NAME =
      Some (to_csv (dataset after_one_run)) /\
    engineer (read_csv (to_csv (dataset after_one_run))) = inr (X, y) /\
    y = [Num (3 # 10); Num 1] /\
    getcol "score_difference" X = Some [Num 3; Num 10] /\
    getcol "score_if_card_played" X = Some [Num 12; Num 19] /\
    forall e,
      train_model_default (files (final_state (create_dataset 1 None fresh)))
        nothing_trained = inl e ->
      raised_in_training (DecisionTreeRegressor 3 42) X y e.
Proof.
  assert (Hall : Forall (fun r => numeric r = true) (dataset fresh)).
  { constructor. }
  split; [exact Hall|]. split; [vm_compute; reflexivity|].
  destruct (dataset_then_train_model 1 None fresh
              {| sets_won := 1; draws := 0; sets_lost := 0 |}
              (final_state
                 (play_sets None (Z.to_nat 1) no_sets (started fresh)))
              nothing_trained Hall)
    as (X & y & Hfile & Heng & Hy & Hd & Hp & _ & _ & Hraise);
    [vm_compute; reflexivity|].
  exists X, y. split; [exact Hfile|]. split; [exact Heng|].
  split; [rewrite Hy; vm_compute; reflexivity|].
  split; [rewrite Hd; vm_compute; reflexivity|].
  split; [rewrite Hp; vm_compute; reflexivity|exact Hraise].
Defined.

Lemma presets_need_their_own_files_witness :
  files fresh !! DECISION_TREE_DEFAULT_DATASET = None /\
  files fresh !! RANDOM_FOREST_DEFAULT_DATASET = None /\
  train_decision_tree (files (final_state (create_dataset 1 None fresh)))
    nothing_trained =
    inl (FileNotFoundError "resources/result_80.csv") /\
  train_random_forest (files (final_state (create_dataset 1 None fresh)))
    nothing_trained =
    inl (FileNotFoundError "resources/result_95.csv").
Proof.
  split; [reflexivity|]. split; [reflexivity|].
  apply (presets_need_their_own_files 1 None fresh nothing_trained);
    reflexivity.
Defined.

Lemma presets_side_by_side_witness :
  exists out1 out2,
    train_decision_tree both_presets nothing_trained = inr out1 /\
    train_random_forest both_presets out1 = inr out2 /\
    exists tree forest,
      trained_on (DecisionTreeRegressor 3 42) (to_csv two_rows) tree /\
      trained_on (RandomForestRegressor 4 42) (to_csv three_rows) forest /\
      models out2 !! DECISION_TREE_DEFAULT_MODEL = Some tree /\
      models out2 !! RANDOM_FOREST_DEFAULT_MODEL = Some forest /\
      graphs out2 !! GRAPHVIZ_FILE_NAME = Some "digraph Tree {}".
Proof.
  pose (out1 := match train_decision_tree both_presets nothing_trained with
                | inr o => o
                | inl _ => nothing_trained
                end).
  pose (out2 := match train_random_forest both_presets out1 with
                | inr o => o
                | inl _ => nothing_trained
                end).
  assert (H1 : train_decision_tree both_presets nothing_trained = inr out1).
  { vm_compute. reflexivity. }
  assert (H2 : train_random_forest both_presets out1 = inr out2).
  { vm_compute. reflexivity. }
  exists out1, out2. split; [exact H1|]. split; [exact H2|].
  destruct (presets_side_by_side both_presets nothing_trained out1 out2 H1 H2)
    as (f_dt & f_rf & tree & forest & dot & Hf1 & Hf2 & Ht1 & Ht2 & Hm1 & Hm2
        & _ & Hdot & Hg).
  assert (Htree : both_presets !! DECISION_TREE_DEFAULT_DATASET =
                  Some (to_csv two_rows)) by (vm_compute; reflexivity).
  assert (Hforest : both_presets !! RANDOM_FOREST_DEFAULT_DATASET =
                    Some (to_csv three_rows)) by (vm_compute; reflexivity).
  rewrite Htree in Hf1. injection Hf1 as <-.
  rewrite Hforest in Hf2. injection Hf2 as <-.
  exists tree, forest. split; [exact Ht1|]. split; [exact Ht2|].
  split; [exact Hm1|]. split; [exact Hm2|].
  simpl in Hdot. injection Hdot as <-.
  rewrite Hg. apply lookup_insert_eq.
Defined.
